(** * Bridge: the TradingView alert pipeline of [backend/app/main.py]

    Shallow embedding of [get_exchange_client], of the quantity / dispatch
    blocks of [process_tradingview_alert] and of the Redis helpers of
    [backend/app/database.py] that the handler uses.

    Conventions of the model:
    - Python floats are modelled by rationals [Q] (exact arithmetic).
    - Python exceptions are the type [exn]: an [HTTPException] (FastAPI) or
      any other [Exception] with its [str(e)].
    - The handler runs in a state and exception monad [M]; the state holds
      the process-wide client cache, the Redis history entries, the log of
      external calls and the position of the wall clock.
    - The outside world (Redis configs and credentials, the ccxt library,
      the exchange, the clock) is a record [env]; exchange answers may
      depend on the number of calls made so far, and each Redis read or
      write may raise. *)

From Stdlib Require Import QArith ZArith String Ascii Bool.
From stdpp Require Import base gmap strings list pretty sorting.

Local Open Scope string_scope.

(** ** Data *)

(** A stored configuration (the JSON dict written by [save_alert_config]). *)
Record config := {
  cfg_exchange : string;
  cfg_symbol : string;
  cfg_order_type : string;
  cfg_position_side : string;
  cfg_quantity : option Q;
  cfg_quantity_percentage : option Q;
  cfg_price : option Q;
}.

(** [TradingViewAlertModel], the fields the handler reads. *)
Record alert := {
  al_config_name : string;
  al_user_id : string;
  al_price : option Q;
}.

(** Decrypted credentials returned by [get_exchange_api_key]. *)
Record creds := { api_key : string; api_secret : string }.

(** A ccxt client object; [h_id] is its object identity. *)
Record handle := {
  h_id : nat;
  h_exchange : string;
  h_api_key : string;
  h_secret : string;
}.

(** Arguments of [exchange.create_order]. *)
Record order_req := {
  rq_symbol : string;
  rq_type : string;
  rq_side : string;
  rq_amount : Q;
  rq_price : option Q;
  rq_params : option (list (string * Q));
}.

(** The exchange's order receipt: its ["id"] entry, if any, and the rest. *)
Record receipt := { rc_id : option string; rc_raw : string }.

(** [OrderResultModel]. *)
Record order_result := {
  or_success : bool;
  or_order_id : option string;
  or_message : option string;
  or_details : option receipt;
  or_timestamp : string;
}.

(** A history dict as written by the handler; a key absent from the dict
    and a key holding [None] are both [None]. *)
Record hist_rec := {
  hr_config_name : string;
  hr_symbol : option string;
  hr_side : option string;
  hr_quantity : option Q;
  hr_price : option Q;
  hr_timestamp : string;
  hr_success : bool;
  hr_order_id : option string;
  hr_details : option receipt;
  hr_message : option string;
}.

Inductive exn :=
| HTTPException (status_code : Z) (detail : string)
| Exception (msg : string).

(** [str(e)]; starlette renders an HTTPException as ["<code>: <detail>"]. *)
Definition exn_str (e : exn) : string :=
  match e with
  | HTTPException c d => pretty c +:+ ": " +:+ d
  | Exception m => m
  end.

(** External calls, in the order they are made. *)
Inductive call :=
| CVaultGet (user_id exchange : string)
| CConstruct (exchange : string)
| CFetchBalance (client : nat)
| CFetchTicker (client : nat) (symbol : string)
| CCreateOrder (client : nat) (req : order_req).

Record env := {
  env_configs : gmap string (string + config);
      (* what [get_alert_config] gives for a key: absent ([{}]), a stored
         config, or [inl msg]: the Redis GET or [json.loads] raises [msg] *)
  env_vault : gmap string (string + creds);
      (* what [get_exchange_api_key] gives for a key: absent ([{}]), the
         decrypted credentials, or [inl msg]: the Redis GET, [json.loads],
         a missing field or Fernet's InvalidToken raises [msg] *)
  env_history_error : string -> option string;
      (* [Some msg]: [redis_client.set] of that history key raises [msg] *)
  env_construct_error : string -> creds -> option string;
      (* [Some msg]: [getattr(ccxt, name)(...)] raises with [msg] *)
  env_fetch_balance : nat -> handle -> string + gmap string Q;
      (* currency -> its ['free'] amount *)
  env_fetch_ticker : nat -> handle -> string -> string + Q;   (* ['last'] *)
  env_create_order : nat -> handle -> order_req -> string + receipt;
      (* a ccxt error is [inl (str(e))] *)
  env_clock : nat -> string;                        (* n-th [datetime.now().isoformat()] *)
}.

Record st := {
  st_cache : gmap string handle;       (* [exchange_clients] *)
  st_history : gmap string hist_rec;   (* Redis [alert:*] keys *)
  st_log : list call;
  st_clock : nat;
}.

Definition set_cache (c : gmap string handle) (s : st) : st :=
  {| st_cache := c; st_history := st_history s; st_log := st_log s; st_clock := st_clock s |}.
Definition set_history (h : gmap string hist_rec) (s : st) : st :=
  {| st_cache := st_cache s; st_history := h; st_log := st_log s; st_clock := st_clock s |}.
Definition log_call (c : call) (s : st) : st :=
  {| st_cache := st_cache s; st_history := st_history s; st_log := st_log s ++ [c]; st_clock := st_clock s |}.
Definition tick (s : st) : st :=
  {| st_cache := st_cache s; st_history := st_history s; st_log := st_log s; st_clock := S (st_clock s) |}.

(** ** The state and exception monad *)

Definition M (A : Type) : Type := st -> (exn + A) * st.

Definition ret {A} (x : A) : M A := fun s => (inr x, s).
Definition bind {A B} (m : M A) (f : A -> M B) : M B :=
  fun s => match m s with
           | (inl e, s') => (inl e, s')
           | (inr x, s') => f x s'
           end.
Definition raise {A} (e : exn) : M A := fun s => (inl e, s).
(** [try: m except: h] *)
Definition try_catch {A} (m : M A) (h : exn -> M A) : M A :=
  fun s => match m s with
           | (inl e, s') => h e s'
           | r => r
           end.

Notation "x <- c ;; k" := (bind c (fun x => k))
  (at level 65, c at next level, right associativity).

(** ** Python helpers *)

(** Truthiness of an optional float: [None] and [0.0] are false. *)
Definition truthy (o : option Q) : option Q :=
  match o with
  | Some q => if Qeq_bool q 0 then None else Some q
  | None => None
  end.

(** [s.split(c)] *)
Fixpoint split_on (c : ascii) (s : string) : list string :=
  match s with
  | EmptyString => [""]
  | String x rest =>
      if Ascii.eqb x c then "" :: split_on c rest
      else match split_on c rest with
           | w :: ws => String x w :: ws
           | [] => [String x ""]
           end
  end.

(** [xs[i]] *)
Definition py_index {A} (xs : list A) (i : nat) : M A :=
  match xs !! i with
  | Some x => ret x
  | None => raise (Exception "list index out of range")
  end.

(** [x / y] on floats *)
Definition py_div (x y : Q) : M Q :=
  if Qeq_bool y 0 then raise (Exception "float division by zero") else ret (x / y)%Q.

(** ** External operations *)

Section Pipeline.
Variable E : env.

Definition now : M string := fun s => (inr (env_clock E (st_clock s)), tick s).

Definition config_key (user_id config_name : string) : string :=
  "user:" +:+ user_id +:+ ":alert_config:" +:+ config_name.

(** [get_alert_config]; [None] stands for the empty dict. *)
Definition get_alert_config (user_id config_name : string) : M (option config) :=
  match env_configs E !! config_key user_id config_name with
  | None => ret None
  | Some (inr c) => ret (Some c)
  | Some (inl msg) => raise (Exception msg)
  end.

Definition exchange_key (user_id exchange : string) : string :=
  "user:" +:+ user_id +:+ ":exchange:" +:+ exchange.

(** [get_exchange_api_key]; [None] stands for the empty dict. *)
Definition get_exchange_api_key (user_id exchange : string) : M (option creds) :=
  fun s => let s1 := log_call (CVaultGet user_id exchange) s in
           match env_vault E !! exchange_key user_id exchange with
           | None => (inr None, s1)
           | Some (inr c) => (inr (Some c), s1)
           | Some (inl msg) => (inl (Exception msg), s1)
           end.

Definition alert_key (user_id timestamp : string) : string :=
  "alert:" +:+ user_id +:+ ":" +:+ timestamp.

(** [save_alert_history]: [redis_client.set(alert_id, ...)] *)
Definition save_alert_history (user_id : string) (r : hist_rec) : M unit :=
  fun s => let k := alert_key user_id (hr_timestamp r) in
           match env_history_error E k with
           | Some msg => (inl (Exception msg), s)
           | None => (inr tt, set_history (<[k := r]> (st_history s)) s)
           end.

(** [exchange_class({...})]: a new object on each call. *)
Definition construct_client (exchange_name : string) (c : creds) : M handle :=
  fun s =>
    let s1 := log_call (CConstruct exchange_name) s in
    match env_construct_error E exchange_name c with
    | Some msg => (inl (Exception msg), s1)
    | None => (inr {| h_id := length (st_log s); h_exchange := exchange_name;
                      h_api_key := api_key c; h_secret := api_secret c |}, s1)
    end.

Definition fetch_balance (h : handle) : M (gmap string Q) :=
  fun s => match env_fetch_balance E (length (st_log s)) h with
           | inl msg => (inl (Exception msg), log_call (CFetchBalance (h_id h)) s)
           | inr b => (inr b, log_call (CFetchBalance (h_id h)) s)
           end.

Definition fetch_ticker (h : handle) (symbol : string) : M Q :=
  fun s => match env_fetch_ticker E (length (st_log s)) h symbol with
           | inl msg => (inl (Exception msg), log_call (CFetchTicker (h_id h) symbol) s)
           | inr p => (inr p, log_call (CFetchTicker (h_id h) symbol) s)
           end.

Definition create_order (h : handle) (rq : order_req) : M receipt :=
  fun s => match env_create_order E (length (st_log s)) h rq with
           | inl msg => (inl (Exception msg), log_call (CCreateOrder (h_id h) rq) s)
           | inr r => (inr r, log_call (CCreateOrder (h_id h) rq) s)
           end.

Definition cache_get (k : string) : M (option handle) :=
  fun s => (inr (st_cache s !! k), s).
Definition cache_put (k : string) (h : handle) : M unit :=
  fun s => (inr tt, set_cache (<[k := h]> (st_cache s)) s).

(** ** [get_exchange_client] (main.py, lines 45-70) *)

Definition client_key (user_id exchange_name : string) : string :=
  user_id +:+ ":" +:+ exchange_name.

Definition get_exchange_client (user_id exchange_name : string) : M handle :=
  let k := client_key user_id exchange_name in
  cached <- cache_get k ;;
  match cached with
  | Some h => ret h
  | None =>
      credentials <- get_exchange_api_key user_id exchange_name ;;
      match credentials with
      | None => raise (HTTPException 404
                  ("API keys not found for exchange " +:+ exchange_name))
      | Some c =>
          try_catch
            (client <- construct_client exchange_name c ;;
             _ <- cache_put k client ;;
             ret client)
            (fun e => raise (HTTPException 500
                  ("Error creating exchange client: " +:+ exn_str e)))
      end
  end.

(** ** Quantity (main.py, lines 177-195) *)

(** Lines 178-192: the value of [quantity] before the guard. *)
Definition determine_quantity (exchange : handle) (config : config) (a : alert)
    (symbol : string) : M (option Q) :=
  match truthy (cfg_quantity config) with
  | Some q => ret (Some q)
  | None =>
      match truthy (cfg_quantity_percentage config) with
      | None => ret None
      | Some pct =>
          balance <- fetch_balance exchange ;;
          base_currency <- py_index (split_on "/" symbol) 1 ;;
          match balance !! base_currency with
          | None => raise (HTTPException 400
                      ("No balance found for " +:+ base_currency))
          | Some available =>
              current_price <- (match truthy (al_price a) with
                                | Some p => ret p
                                | None => fetch_ticker exchange symbol
                                end) ;;
              quantity <- py_div (available * pct / 100)%Q current_price ;;
              ret (Some quantity)
          end
      end
  end.

(** Lines 177-195, with the [if not quantity] guard. *)
Definition resolve_quantity (exchange : handle) (config : config) (a : alert)
    (symbol : string) : M Q :=
  quantity <- determine_quantity exchange config a symbol ;;
  match truthy quantity with
  | None => raise (HTTPException 400 "Could not determine order quantity")
  | Some q => ret q
  end.

(** ** Order dispatch (main.py, lines 197-235) *)

(** [alert.price if alert.price else config.get("price")] *)
Definition order_price (config : config) (a : alert) : option Q :=
  match truthy (al_price a) with
  | Some p => Some p
  | None => cfg_price config
  end.

Definition dispatch_order (exchange : handle) (config : config) (a : alert)
    (symbol order_type side : string) (quantity : Q) : M (option receipt) :=
  if String.eqb order_type "market" then
    r <- create_order exchange {| rq_symbol := symbol; rq_type := "market"; rq_side := side;
                                  rq_amount := quantity; rq_price := None; rq_params := None |} ;;
    ret (Some r)
  else if String.eqb order_type "limit" then
    match truthy (order_price config a) with
    | None => raise (HTTPException 400 "Price required for limit orders")
    | Some price =>
        r <- create_order exchange {| rq_symbol := symbol; rq_type := "limit"; rq_side := side;
                                      rq_amount := quantity; rq_price := Some price;
                                      rq_params := None |} ;;
        ret (Some r)
    end
  else if String.eqb order_type "stop_loss" || String.eqb order_type "take_profit" then
    match truthy (order_price config a) with
    | None => raise (HTTPException 400
                ("Price required for " +:+ order_type +:+ " orders"))
    | Some price =>
        r <- create_order exchange {| rq_symbol := symbol; rq_type := "stop"; rq_side := side;
                                      rq_amount := quantity; rq_price := Some price;
                                      rq_params := Some [("stopPrice", price)] |} ;;
        ret (Some r)
    end
  else ret None.

(** ** [process_tradingview_alert] (main.py, lines 158-279) *)

(** The [try] block, lines 162-260. *)
Definition process_body (a : alert) : M order_result :=
  config <- get_alert_config (al_user_id a) (al_config_name a) ;;
  match config with
  | None => raise (HTTPException 404
              ("Configuration '" +:+ al_config_name a +:+ "' not found"))
  | Some config =>
      exchange <- get_exchange_client (al_user_id a) (cfg_exchange config) ;;
      let symbol := cfg_symbol config in
      let order_type := cfg_order_type config in
      let side := if String.eqb (cfg_position_side config) "long" then "buy" else "sell" in
      quantity <- resolve_quantity exchange config a symbol ;;
      order_res <- dispatch_order exchange config a symbol order_type side quantity ;;
      ts <- now ;;
      let result := {| or_success := true;
                       or_order_id := match order_res with Some r => rc_id r | None => None end;
                       or_message := Some "Order executed successfully";
                       or_details := order_res;
                       or_timestamp := ts |} in
      _ <- save_alert_history (al_user_id a)
             {| hr_config_name := al_config_name a;
                hr_symbol := Some symbol;
                hr_side := Some side;
                hr_quantity := Some quantity;
                hr_price := al_price a;
                hr_timestamp := or_timestamp result;
                hr_success := true;
                hr_order_id := or_order_id result;
                hr_details := or_details result;
                hr_message := None |} ;;
      ret result
  end.

(** The [except Exception] block, lines 263-279. *)
Definition failure_path (a : alert) (e : exn) : M order_result :=
  ts <- now ;;
  let error_result := {| or_success := false;
                         or_order_id := None;
                         or_message := Some ("Error executing order: " +:+ exn_str e);
                         or_details := None;
                         or_timestamp := ts |} in
  _ <- save_alert_history (al_user_id a)
         {| hr_config_name := al_config_name a;
            hr_symbol := None; hr_side := None; hr_quantity := None; hr_price := None;
            hr_timestamp := or_timestamp error_result;
            hr_success := false;
            hr_order_id := None; hr_details := None;
            hr_message := or_message error_result |} ;;
  ret error_result.

Definition process_tradingview_alert (a : alert) : M order_result :=
  try_catch (process_body a)
    (fun e => match e with
              | HTTPException _ _ => raise e      (* except HTTPException: raise *)
              | Exception _ => failure_path a e
              end).

End Pipeline.

(** ** A concrete world, for examples *)

Definition cfg_c1 : config :=
  {| cfg_exchange := "binance"; cfg_symbol := "BTC/USDT"; cfg_order_type := "market";
     cfg_position_side := "long"; cfg_quantity := Some (1 # 100)%Q;
     cfg_quantity_percentage := None; cfg_price := None |}.

Definition alert_c1 : alert := {| al_config_name := "c1"; al_user_id := "u1"; al_price := None |}.

Definition creds_u1 : creds := {| api_key := "k"; api_secret := "s" |}.

Definition vault_u1 : gmap string (string + creds) :=
  <[exchange_key "u1" "binance" := inr creds_u1]> ∅.

(** The exchange accepts every order and numbers it by the call count. *)
Definition accepting (n : nat) (_ : handle) (_ : order_req) : string + receipt :=
  inr {| rc_id := Some ("ord" +:+ pretty (Z.of_nat n)); rc_raw := "" |}.

Definition rejecting (_ : nat) (_ : handle) (_ : order_req) : string + receipt :=
  inl "insufficient funds".

(** A world with the given configurations, credentials, order behaviour and
    clock; Redis writes succeed, ccxt constructs every client, the balance
    is 1000 USDT and the ticker is at 50000. *)
Definition world (configs : gmap string (string + config)) (vault : gmap string (string + creds))
    (orders : nat -> handle -> order_req -> string + receipt) (clock : nat -> string) : env :=
  {| env_configs := configs;
     env_vault := vault;
     env_history_error := fun _ => None;
     env_construct_error := fun _ _ => None;
     env_fetch_balance := fun _ _ => inr (<["USDT" := 1000%Q]> ∅);
     env_fetch_ticker := fun _ _ _ => inr 50000%Q;
     env_create_order := orders;
     env_clock := clock |}.

Definition configs_of (name : string) (c : config) : gmap string (string + config) :=
  <[config_key "u1" name := inr c]> ∅.

Definition ticking (n : nat) : string := pretty (Z.of_nat n).

Definition st0 : st := {| st_cache := ∅; st_history := ∅; st_log := []; st_clock := 0 |}.


Definition stamp (_ : nat) : string := "2026-10-14T12:00:00".


Definition h0 : handle :=
  {| h_id := 0; h_exchange := "binance"; h_api_key := "k"; h_secret := "s" |}.

Definition with_type (ot : string) (c : config) : config :=
  {| cfg_exchange := cfg_exchange c; cfg_symbol := cfg_symbol c; cfg_order_type := ot;
     cfg_position_side := cfg_position_side c; cfg_quantity := cfg_quantity c;
     cfg_quantity_percentage := cfg_quantity_percentage c; cfg_price := cfg_price c |}.

(** [quantity_percentage: 10], no fixed quantity. *)
Definition cfg_pct : config :=
  {| cfg_exchange := "binance"; cfg_symbol := "BTC/USDT"; cfg_order_type := "market";
     cfg_position_side := "long"; cfg_quantity := None;
     cfg_quantity_percentage := Some 10%Q; cfg_price := None |}.

(** A limit order with a stored price of 100. *)
Definition cfg_limit : config :=
  {| cfg_exchange := "binance"; cfg_symbol := "BTC/USDT"; cfg_order_type := "limit";
     cfg_position_side := "long"; cfg_quantity := Some (1 # 100)%Q;
     cfg_quantity_percentage := None; cfg_price := Some 100%Q |}.

Definition cfg_none : config :=
  {| cfg_exchange := "binance"; cfg_symbol := "BTC/USDT"; cfg_order_type := "market";
     cfg_position_side := "long"; cfg_quantity := None;
     cfg_quantity_percentage := None; cfg_price := None |}.

Definition cfg_neg : config :=
  {| cfg_exchange := "binance"; cfg_symbol := "BTC/USDT"; cfg_order_type := "market";
     cfg_position_side := "long"; cfg_quantity := Some (-1)%Q;
     cfg_quantity_percentage := None; cfg_price := None |}.

Definition priced (p : Q) (a : alert) : alert :=
  {| al_config_name := al_config_name a; al_user_id := al_user_id a; al_price := Some p |}.

Definition alert_c9 : alert := {| al_config_name := "c9"; al_user_id := "u1"; al_price := None |}.

Definition rq_c1 : order_req :=
  {| rq_symbol := "BTC/USDT"; rq_type := "market"; rq_side := "buy";
     rq_amount := (1 # 100)%Q; rq_price := None; rq_params := None |}.

Definition E_ok : env := world (configs_of "c1" cfg_c1) vault_u1 accepting ticking.

(** Redis is unreachable: every read and write raises. *)
Definition redis_down : string := "Error 111 connecting to redis:6379. Connection refused.".

Definition E_down : env :=
  {| env_configs := <[config_key "u1" "c1" := inl redis_down]> ∅;
     env_vault := <[exchange_key "u1" "binance" := inl redis_down]> ∅;
     env_history_error := fun _ => Some redis_down;
     env_construct_error := fun _ _ => None;
     env_fetch_balance := fun _ _ => inr (<["USDT" := 1000%Q]> ∅);
     env_fetch_ticker := fun _ _ _ => inr 50000%Q;
     env_create_order := accepting;
     env_clock := ticking |}.

Definition run1 := process_tradingview_alert E_ok alert_c1 st0.
Definition run2 := process_tradingview_alert E_ok alert_c1 (snd run1).

(** A stored configuration whose order type is none of the four. *)
Definition cfg_trailing : config := with_type "trailing" cfg_c1.

Definition E_trailing : env := world (configs_of "c1" cfg_trailing) vault_u1 accepting ticking.

(** The client built for ["u1:binance"] after the vault read, and the
    state right after. *)
Definition h1 : handle :=
  {| h_id := 1; h_exchange := "binance"; h_api_key := "k"; h_secret := "s" |}.

Definition st_client : st :=
  {| st_cache := <[client_key "u1" "binance" := h1]> ∅; st_history := ∅;
     st_log := [CVaultGet "u1" "binance"; CConstruct "binance"]; st_clock := 0 |}.

(** [quantity_percentage: -10], no fixed quantity. *)
Definition cfg_negpct : config :=
  {| cfg_exchange := "binance"; cfg_symbol := "BTC/USDT"; cfg_order_type := "market";
     cfg_position_side := "long"; cfg_quantity := None;
     cfg_quantity_percentage := Some (-10)%Q; cfg_price := None |}.

(** * Redis persistence ([backend/app/database.py]) and the REST endpoints

    Redis holds strings; the helpers write [json.dumps(x)] and read back
    [json.loads(...)], which gives back [x] for the dicts the code stores, so
    a stored value is modelled by the JSON document itself.  Redis calls are
    taken to succeed.  Fernet encryption is a pair of functions: [encrypt]
    takes a fresh nonce (Fernet tokens are randomised), [decrypt] fails with
    InvalidToken on a bad token. *)

Module Database.

#[warnings="-register-all"]
Inductive json :=
| JNull
| JBool (b : bool)
| JInt (z : Z)      (* a number written without fraction or exponent *)
| JNum (q : Q)      (* a float *)
| JStr (s : string)
| JList (xs : list json)
| JObj (fields : list (string * json)).

(** [d.get(k)] on a dict (insertion-ordered, keys unique). *)
Fixpoint dict_get (d : list (string * json)) (k : string) : option json :=
  match d with
  | [] => None
  | (k', v) :: d' => if String.eqb k k' then Some v else dict_get d' k
  end.

(** [d[k] = v]: an existing key keeps its position, a new one goes last. *)
Fixpoint dict_set (d : list (string * json)) (k : string) (v : json) : list (string * json) :=
  match d with
  | [] => [(k, v)]
  | (k', v') :: d' => if String.eqb k k' then (k, v) :: d' else (k', v') :: dict_set d' k v
  end.

(** Python truthiness of a JSON value. *)
Definition json_truthy (j : json) : bool :=
  match j with
  | JNull => false
  | JBool b => b
  | JInt z => negb (Z.eqb z 0)
  | JNum q => negb (Qeq_bool q 0)
  | JStr s => negb (String.eqb s "")
  | JList xs => match xs with [] => false | _ => true end
  | JObj d => match d with [] => false | _ => true end
  end.

(** [j[k]] with a string key. *)
Definition json_getitem (j : json) (k : string) : exn + json :=
  match j with
  | JObj d => match dict_get d k with
              | Some v => inr v
              | None => inl (Exception ("'" +:+ k +:+ "'"))      (* KeyError *)
              end
  | JNull => inl (Exception "'NoneType' object is not subscriptable")
  | JBool _ => inl (Exception "'bool' object is not subscriptable")
  | JInt _ => inl (Exception "'int' object is not subscriptable")
  | JNum _ => inl (Exception "'float' object is not subscriptable")
  | JStr _ => inl (Exception "string indices must be integers")
  | JList _ => inl (Exception "list indices must be integers or slices, not str")
  end.

(** [j[k] = v] with a string key. *)
Definition json_setitem (j : json) (k : string) (v : json) : exn + json :=
  match j with
  | JObj d => inr (JObj (dict_set d k v))
  | JNull => inl (Exception "'NoneType' object does not support item assignment")
  | JBool _ => inl (Exception "'bool' object does not support item assignment")
  | JInt _ => inl (Exception "'int' object does not support item assignment")
  | JNum _ => inl (Exception "'float' object does not support item assignment")
  | JStr _ => inl (Exception "'str' object does not support item assignment")
  | JList _ => inl (Exception "list indices must be integers or slices, not str")
  end.

Record redis := { r_store : gmap string json; r_nonce : nat }.

Definition redis_set (k : string) (v : json) (r : redis) : bool * redis :=
  (true, {| r_store := <[k := v]> (r_store r); r_nonce := r_nonce r |}).

(** [redis_client.delete(k)]: the number of keys removed. *)
Definition redis_delete (k : string) (r : redis) : nat * redis :=
  (match r_store r !! k with Some _ => 1 | None => 0 end,
   {| r_store := delete k (r_store r); r_nonce := r_nonce r |}).

Fixpoint startswith (p s : string) : bool :=
  match p, s with
  | EmptyString, _ => true
  | String c p', String d s' => Ascii.eqb c d && startswith p' s'
  | String _ _, EmptyString => false
  end.

(** [c in s] *)
Fixpoint has_char (c : ascii) (s : string) : bool :=
  match s with
  | EmptyString => false
  | String d s' => Ascii.eqb d c || has_char c s'
  end.

(** [p] holds none of the characters KEYS reads as glob syntax: [*], [?],
    [[] and the escape [\]. *)
Definition glob_free (p : string) : bool :=
  negb (has_char "*" p || has_char "?" p || has_char "[" p || has_char "\" p).

(** [redis_client.keys(p + "*")]: the keys starting with [p], in the
    store's order.  This is what KEYS returns when [glob_free p]; for a
    [p] with glob syntax KEYS matches differently, and this model does not
    cover that case (the theorems that rely on it assume [glob_free]). *)
Definition redis_keys_prefix (p : string) (r : redis) : list string :=
  List.filter (startswith p) (map fst (map_to_list (r_store r))).

(** Python's [xs[:n]]. *)
Definition py_slice_upto {A} (xs : list A) (n : Z) : list A :=
  if (0 <=? n)%Z then take (Z.to_nat n) xs
  else take (length xs - Z.to_nat (- n)) xs.

(** The order of [keys.sort(reverse=True)]: [x] comes before [y] when
    [x >= y] (code-point order, which is the byte order of UTF-8). *)
Definition key_ge (x y : string) : Prop := String.leb y x = true.

#[global] Instance key_ge_dec : RelDecision key_ge :=
  fun x y => decide (String.leb y x = true).

Section Store.
Variable encrypt : nat -> string -> string.
Variable decrypt : string -> option string.

Definition encrypt_data (data : string) (r : redis) : string * redis :=
  (encrypt (r_nonce r) data, {| r_store := r_store r; r_nonce := S (r_nonce r) |}).

Definition decrypt_data (data : json) : exn + string :=
  match data with
  | JStr t => match decrypt t with
              | Some x => inr x
              | None => inl (Exception "")   (* str(InvalidToken()) *)
              end
  | _ => inl (Exception "object has no attribute 'encode'")
  end.

(** [save_exchange_api_key] (lines 35-42) *)
Definition save_exchange_api_key (user_id exchange api_key api_secret : string)
    (r : redis) : bool * redis :=
  let (k, r1) := encrypt_data api_key r in
  let (s, r2) := encrypt_data api_secret r1 in
  redis_set (exchange_key user_id exchange)
    (JObj [("api_key", JStr k); ("api_secret", JStr s)]) r2.

(** [get_exchange_api_key] (lines 44-55); [None] is the empty dict. *)
Definition get_exchange_api_key (user_id exchange : string) (r : redis) : exn + option creds :=
  match r_store r !! exchange_key user_id exchange with
  | None => inr None
  | Some encrypted_data =>
      match json_getitem encrypted_data "api_key" with
      | inl e => inl e
      | inr ek =>
          match decrypt_data ek with
          | inl e => inl e
          | inr k =>
              match json_getitem encrypted_data "api_secret" with
              | inl e => inl e
              | inr es =>
                  match decrypt_data es with
                  | inl e => inl e
                  | inr s => inr (Some {| api_key := k; api_secret := s |})
                  end
              end
          end
      end
  end.

End Store.

(** [delete_exchange_api_key] (lines 57-60) *)
Definition delete_exchange_api_key (user_id exchange : string) (r : redis) : bool * redis :=
  let (n, r') := redis_delete (exchange_key user_id exchange) r in (Nat.ltb 0 n, r').

(** [save_alert_config] (lines 63-66) *)
Definition save_alert_config (user_id config_name : string) (config_data : json)
    (r : redis) : bool * redis :=
  redis_set (config_key user_id config_name) config_data r.

(** [get_alert_config] (lines 68-74); a missing key gives [{}]. *)
Definition get_alert_config (user_id config_name : string) (r : redis) : json :=
  match r_store r !! config_key user_id config_name with
  | None => JObj []
  | Some d => d
  end.

(** The loop of [get_all_alert_configs] (lines 81-86). *)
Fixpoint collect_configs (user_id : string) (keys : list string) (r : redis) : exn + list json :=
  match keys with
  | [] => inr []
  | key :: keys' =>
      let config_name := match last (split_on ":" key) with Some n => n | None => "" end in
      let config := get_alert_config user_id config_name r in
      if json_truthy config then
        match json_setitem config "name" (JStr config_name) with
        | inl e => inl e
        | inr c => match collect_configs user_id keys' r with
                   | inl e => inl e
                   | inr cs => inr (c :: cs)
                   end
        end
      else collect_configs user_id keys' r
  end.

(** [get_all_alert_configs] (lines 76-87) *)
Definition get_all_alert_configs (user_id : string) (r : redis) : exn + list json :=
  collect_configs user_id (redis_keys_prefix ("user:" +:+ user_id +:+ ":alert_config:") r) r.

(** [delete_alert_config] (lines 89-92) *)
Definition delete_alert_config (user_id config_name : string) (r : redis) : bool * redis :=
  let (n, r') := redis_delete (config_key user_id config_name) r in (Nat.ltb 0 n, r').

(** The loop of [get_alert_history] (lines 108-112): every key came from
    KEYS, and a stored JSON text is never empty, so [if data] holds. *)
Fixpoint read_records (keys : list string) (r : redis) : list json :=
  match keys with
  | [] => []
  | key :: keys' =>
      match r_store r !! key with
      | Some d => d :: read_records keys' r
      | None => read_records keys' r
      end
  end.

(** [get_alert_history] (lines 100-114) *)
Definition get_alert_history (user_id : string) (limit : Z) (r : redis) : list json :=
  let keys := redis_keys_prefix ("alert:" +:+ user_id +:+ ":") r in
  let keys := merge_sort key_ge keys in
  let keys := py_slice_upto keys limit in
  read_records keys r.

End Database.

(** * The REST endpoints of [backend/app/main.py] (lines 75-155, 281-290)

    Every endpoint acts for the user ["default"].  A write endpoint returns
    its JSON answer and the new store.  The response models' own validation
    of what is returned is not modelled. *)

Module Api.
Import Database.

Inductive exchange_enum := BINANCE | COINBASE | BYBIT | OKEX | KUCOIN | BITFINEX | FTX | HUOBI.

Definition exchange_value (e : exchange_enum) : string :=
  match e with
  | BINANCE => "binance" | COINBASE => "coinbase" | BYBIT => "bybit" | OKEX => "okex"
  | KUCOIN => "kucoin" | BITFINEX => "bitfinex" | FTX => "ftx" | HUOBI => "huobi"
  end.

Inductive order_type_enum := MARKET | LIMIT | STOP_LOSS | TAKE_PROFIT.

Definition order_type_value (o : order_type_enum) : string :=
  match o with
  | MARKET => "market" | LIMIT => "limit" | STOP_LOSS => "stop_loss" | TAKE_PROFIT => "take_profit"
  end.

Inductive position_side_enum := LONG | SHORT.

Definition position_side_value (p : position_side_enum) : string :=
  match p with LONG => "long" | SHORT => "short" end.

(** [ApiKeyModel] *)
Record api_key_model := {
  akm_exchange : exchange_enum;
  akm_api_key : string;
  akm_api_secret : string;
}.

(** [AlertConfigModel] *)
Record alert_config_model := {
  acm_name : string;
  acm_exchange : exchange_enum;
  acm_symbol : string;
  acm_order_type : order_type_enum;
  acm_position_side : position_side_enum;
  acm_quantity : option Q;
  acm_quantity_percentage : option Q;
  acm_price : option Q;
  acm_stop_loss : option Q;
  acm_take_profit : option Q;
  acm_description : option string;
}.

Definition opt_num (o : option Q) : json :=
  match o with Some q => JNum q | None => JNull end.

Definition opt_str (o : option string) : json :=
  match o with Some x => JStr x | None => JNull end.

(** [config.dict()] as [json.dumps] writes it: the fields in declaration
    order, the str-based enums as their values, [None] as [null]. *)
Definition config_dict (m : alert_config_model) : json :=
  JObj [("name", JStr (acm_name m));
        ("exchange", JStr (exchange_value (acm_exchange m)));
        ("symbol", JStr (acm_symbol m));
        ("order_type", JStr (order_type_value (acm_order_type m)));
        ("position_side", JStr (position_side_value (acm_position_side m)));
        ("quantity", opt_num (acm_quantity m));
        ("quantity_percentage", opt_num (acm_quantity_percentage m));
        ("price", opt_num (acm_price m));
        ("stop_loss", opt_num (acm_stop_loss m));
        ("take_profit", opt_num (acm_take_profit m));
        ("description", opt_str (acm_description m))].

Definition default_user : string := "default".

(** FastAPI answers a query parameter outside its [Query] bounds with a 422
    validation response; its detail text is not modelled. *)
Definition validation_error : exn := HTTPException 422 "request validation failed".

Section Endpoints.
Variable encrypt : nat -> string -> string.
Variable decrypt : string -> option string.

(** [add_api_key] (lines 76-90) *)
Definition add_api_key (api_key : api_key_model) (r : redis) : (exn + json) * redis :=
  let (result, r') := save_exchange_api_key encrypt default_user
                        (exchange_value (akm_exchange api_key))
                        (akm_api_key api_key) (akm_api_secret api_key) r in
  (inr (JObj [("success", JBool result); ("message", JStr "API keys saved successfully")]), r').

(** [get_api_key_status] (lines 92-100) *)
Definition get_api_key_status (exchange : string) (r : redis) : exn + json :=
  match get_exchange_api_key decrypt default_user exchange r with
  | inl e => inl (HTTPException 500 (exn_str e))
  | inr keys => inr (JObj [("has_keys", JBool (match keys with Some _ => true | None => false end))])
  end.

End Endpoints.

(** [remove_api_key] (lines 102-110) *)
Definition remove_api_key (exchange : string) (r : redis) : (exn + json) * redis :=
  let (result, r') := delete_exchange_api_key default_user exchange r in
  (inr (JObj [("success", JBool result)]), r').

(** [create_alert_config] (lines 113-121) *)
Definition create_alert_config (config : alert_config_model) (r : redis) : (exn + json) * redis :=
  let (result, r') := save_alert_config default_user (acm_name config) (config_dict config) r in
  (inr (JObj [("success", JBool result); ("message", JStr "Configuration saved successfully")]), r').

(** [get_config] (lines 123-135) *)
Definition get_config (config_name : string) (r : redis) : exn + json :=
  let config := get_alert_config default_user config_name r in
  if json_truthy config then inr config
  else inl (HTTPException 404 ("Configuration " +:+ config_name +:+ " not found")).

(** [list_configs] (lines 137-145) *)
Definition list_configs (r : redis) : exn + json :=
  match get_all_alert_configs default_user r with
  | inl e => inl (HTTPException 500 (exn_str e))
  | inr configs => inr (JList configs)
  end.

(** [remove_config] (lines 147-155) *)
Definition remove_config (config_name : string) (r : redis) : (exn + json) * redis :=
  let (result, r') := delete_alert_config default_user config_name r in
  (inr (JObj [("success", JBool result)]), r').

(** [get_user_alert_history] (lines 282-290); [None] is an absent
    [limit] parameter, which defaults to 20. *)
Definition get_user_alert_history (limit : option Z) (r : redis) : exn + json :=
  let limit := match limit with Some l => l | None => 20%Z end in
  if (1 <=? limit)%Z && (limit <=? 100)%Z
  then inr (JList (get_alert_history default_user limit r))
  else inl validation_error.

End Api.

(** * The Streamlit frontend ([frontend/app/main.py]) *)

Module Frontend.
Import Database.

(** An HTTP response as httpx gives it: the status, whether the body is
    non-empty ([bool(response.content)]), [response.json()] (a decoding
    error is [inl msg]) and [response.text]. *)
Record response := {
  rs_status : Z;
  rs_has_content : bool;
  rs_json : string + json;
  rs_text : string;
}.

(** [api_delete] (lines 55-66): the value returned and the messages shown
    with [st.error]; the request's outcome is [inl msg] when httpx raises. *)
Definition api_delete (outcome : string + response) : option json * list string :=
  match outcome with
  | inl msg => (None, ["Connection error: " +:+ msg])
  | inr response =>
      if (rs_status response =? 200)%Z || (rs_status response =? 204)%Z then
        if rs_has_content response then
          match rs_json response with
          | inr j => (Some j, [])
          | inl msg => (None, ["Connection error: " +:+ msg])
          end
        else (Some (JObj [("success", JBool true)]), [])
      else (None, ["API Error (" +:+ pretty (rs_status response) +:+ "): " +:+ rs_text response])
  end.

(** The check after deleting API keys (lines 183-188): [Some true] shows
    the success message, [Some false] the failure message; [None] is an
    [AttributeError] of [result.get] on a non-dict result. *)
Definition delete_feedback (result : option json) : option bool :=
  match result with
  | None => Some false
  | Some j =>
      if json_truthy j then
        match j with
        | JObj d => Some (match dict_get d "success" with Some v => json_truthy v | None => false end)
        | _ => None
        end
      else Some false
  end.

(** How FastAPI answers: a returned value is a 200 response with its JSON
    body, an [HTTPException] the response [{"detail": ...}] with its status,
    any other exception a 500.  [dumps] is [json.dumps]. *)
Section Response.
Variable dumps : json -> string.

Definition to_response (r : exn + json) : response :=
  match r with
  | inr j => {| rs_status := 200; rs_has_content := true; rs_json := inr j; rs_text := dumps j |}
  | inl (HTTPException c d) =>
      let body := JObj [("detail", JStr d)] in
      {| rs_status := c; rs_has_content := true; rs_json := inr body; rs_text := dumps body |}
  | inl (Exception _) =>
      {| rs_status := 500; rs_has_content := true; rs_json := inl "Expecting value";
         rs_text := "Internal Server Error" |}
  end.

End Response.

(** The inputs of the configuration form (lines 224-245); the widgets not
    shown are still given a value, which the form ignores. *)
Record form := {
  f_name : string;
  f_exchange : string;
  f_symbol : string;
  f_order_type : string;
  f_position_side : string;
  f_use_percentage : bool;
  f_quantity_percentage_input : Q;
  f_quantity_input : Q;
  f_price_input : Q;
  f_description : string;
}.

(** Lines 231-256: the dict posted to [/api/config], or the error shown. *)
Definition build_config_data (f : form) : string + list (string * json) :=
  let quantity_percentage := if f_use_percentage f then Some (f_quantity_percentage_input f) else None in
  let quantity := if f_use_percentage f then None else Some (f_quantity_input f) in
  let price := if negb (String.eqb (f_order_type f) "market") then Some (f_price_input f) else None in
  if String.eqb (f_name f) "" || String.eqb (f_symbol f) "" then inl "Name and Symbol are required"
  else
    let config_data := [("name", JStr (f_name f)); ("exchange", JStr (f_exchange f));
                        ("symbol", JStr (f_symbol f)); ("order_type", JStr (f_order_type f));
                        ("position_side", JStr (f_position_side f));
                        ("description", JStr (f_description f))] in
    let config_data :=
      match (if f_use_percentage f then truthy quantity_percentage else None) with
      | Some qp => dict_set config_data "quantity_percentage" (JNum qp)
      | None => match truthy quantity with
                | Some q => dict_set config_data "quantity" (JNum q)
                | None => config_data
                end
      end in
    match truthy price with
    | Some p => inr (dict_set config_data "price" (JNum p))
    | None => inr config_data
    end.

End Frontend.

(** ** Predicates on computations *)

Definition hist_pres {A} (m : M A) : Prop :=
  forall s r s', m s = (r, s') -> st_history s' = st_history s.

(** A computation that leaves the history alone whenever it raises. *)
Definition hist_pres_exn {A} (m : M A) : Prop :=
  forall s e s', m s = (inl e, s') -> st_history s' = st_history s.

Definition raises_only {A} (P : exn -> Prop) (m : M A) : Prop :=
  forall s e s', m s = (inl e, s') -> P e.

Definition not_undetermined (e : exn) : Prop :=
  e <> HTTPException 400 "Could not determine order quantity".

Definition same_but_history (s t : st) : Prop :=
  st_cache s = st_cache t /\ st_log s = st_log t /\ st_clock s = st_clock t.

(** The outcome of [m] does not depend on the history store. *)
Definition hist_indep {A} (m : M A) : Prop :=
  forall s t, same_but_history s t ->
    fst (m s) = fst (m t) /\ same_but_history (snd (m s)) (snd (m t)).

(** The orders placed, in a list of external calls. *)
Fixpoint order_calls (l : list call) : list order_req :=
  match l with
  | [] => []
  | CCreateOrder _ rq :: l' => rq :: order_calls l'
  | _ :: l' => order_calls l'
  end.

(** [m] appends calls to the log, among them at most [k] orders, each one
    satisfying [P]; a value it returns satisfies [Q]. *)
Definition adds_orders {A} (P : order_req -> Prop) (k : nat) (Q : A -> Prop) (m : M A) : Prop :=
  forall s r s', m s = (r, s') ->
    (exists l, st_log s' = (st_log s ++ l)%list /\
               (length (order_calls l) <= k)%nat /\ Forall P (order_calls l)) /\
    (forall x, r = inr x -> Q x).

(** Every cached client was built for the pair its key names: for exchange
    [ex'] (a name with no [:]) and with the credentials stored for [u'] and
    [ex']. *)
Definition cache_sound (E : env) (s : st) : Prop :=
  forall k h, st_cache s !! k = Some h ->
    exists u' ex' c, k = client_key u' ex' /\ Database.has_char ":" ex' = false /\
                     h_exchange h = ex' /\ env_vault E !! exchange_key u' ex' = Some (inr c) /\
                     h_api_key h = api_key c /\ h_secret h = api_secret c.

(** ** Concrete stores, for examples *)

(** The identity cipher: a stand-in for Fernet that inverts itself. *)
Definition id_encrypt (_ : nat) (x : string) : string := x.
Definition id_decrypt (t : string) : option string := Some t.

Definition cfg_model_demo : Api.alert_config_model :=
  {| Api.acm_name := "btc_long"; Api.acm_exchange := Api.BINANCE; Api.acm_symbol := "BTC/USDT";
     Api.acm_order_type := Api.MARKET; Api.acm_position_side := Api.LONG;
     Api.acm_quantity := Some (1 # 100)%Q; Api.acm_quantity_percentage := None;
     Api.acm_price := None; Api.acm_stop_loss := None; Api.acm_take_profit := None;
     Api.acm_description := None |}.

(** User ["default"] has configurations ["m1"] and ["x:m1"] and one history
    record; user ["default:x"] has one history record. *)
Definition redis_demo : Database.redis :=
  {| Database.r_store :=
       <[config_key "default" "m1" := Database.JObj [("name", Database.JStr "m1")]]>
       (<[config_key "default" "x:m1" := Database.JObj [("name", Database.JStr "x:m1")]]>
        (<[alert_key "default:x" "t1" := Database.JObj [("success", Database.JBool true)]]>
         (<[alert_key "default" "t0" := Database.JObj [("success", Database.JBool false)]]> ∅)));
     Database.r_nonce := 0 |}.

Definition E_nokeys : env := world (configs_of "c1" cfg_c1) ∅ accepting ticking.

(** * Properties *)

(** ** Monad and truthiness facts *)

Lemma bind_inv {A B} (m : M A) (f : A -> M B) s r s' :
  bind m f s = (r, s') ->
  (exists e, r = inl e /\ m s = (inl e, s')) \/
  (exists x s1, m s = (inr x, s1) /\ f x s1 = (r, s')).
Proof.
  unfold bind. destruct (m s) as [[e|x] s1]; intros H.
  - left. inversion H; subst. eauto.
  - right. eauto.
Qed.

Lemma bind_inr {A B} (m : M A) (f : A -> M B) s x s1 :
  m s = (inr x, s1) -> bind m f s = f x s1.
Proof. intros H. unfold bind. rewrite H. reflexivity. Qed.

Ltac inv_bind H :=
  apply bind_inv in H;
  destruct H as [[? [? ?]]|[?x [?s [?Hm H]]]]; [discriminate|cbv beta zeta in H].

Lemma truthy_Some o q : truthy o = Some q -> o = Some q /\ ~ (q == 0)%Q.
Proof.
  destruct o as [p|]; simpl; [|discriminate].
  destruct (Qeq_bool p 0) eqn:Hp; intros H; inversion H; subst.
  split; [reflexivity|]. apply Qeq_bool_neq. exact Hp.
Qed.

Lemma truthy_None_Some q : truthy (Some q) = None -> (q == 0)%Q.
Proof.
  simpl. destruct (Qeq_bool q 0) eqn:Hq; [|discriminate].
  intros _. apply Qeq_bool_iff. exact Hq.
Qed.

Lemma truthy_nonzero q : ~ (q == 0)%Q -> truthy (Some q) = Some q.
Proof.
  intros Hq. simpl. destruct (Qeq_bool q 0) eqn:Hb; [|reflexivity].
  exfalso. apply Hq. apply Qeq_bool_iff. exact Hb.
Qed.

Lemma truthy_pos q : (0 < q)%Q -> truthy (Some q) = Some q.
Proof.
  intros Hq. apply truthy_nonzero. intros H. rewrite H in Hq.
  exact (Qlt_irrefl 0 Hq).
Qed.

(** ** Only [save_alert_history] writes the history *)


Create HintDb hist.

Lemma hist_pres_ret {A} (x : A) : hist_pres (ret x).
Proof. intros s r s' H. inversion H. reflexivity. Qed.

Lemma hist_pres_raise {A} e : hist_pres (@raise A e).
Proof. intros s r s' H. inversion H. reflexivity. Qed.

Lemma hist_pres_bind {A B} (m : M A) (f : A -> M B) :
  hist_pres m -> (forall x, hist_pres (f x)) -> hist_pres (bind m f).
Proof.
  intros Hm Hf s r s' H. unfold bind in H.
  destruct (m s) as [[e|x] s1] eqn:E1.
  - inversion H; subst. eapply Hm; eauto.
  - rewrite (Hf x s1 r s' H). eapply Hm; eauto.
Qed.

Lemma hist_pres_try {A} (m : M A) (h : exn -> M A) :
  hist_pres m -> (forall e, hist_pres (h e)) -> hist_pres (try_catch m h).
Proof.
  intros Hm Hh s r s' H. unfold try_catch in H.
  destruct (m s) as [[e|x] s1] eqn:E1.
  - rewrite (Hh e s1 r s' H). eapply Hm; eauto.
  - inversion H; subst. eapply Hm; eauto.
Qed.

#[local] Hint Resolve hist_pres_ret hist_pres_raise : hist.

Ltac solve_pres :=
  repeat first
    [ apply hist_pres_bind; [|intro]
    | apply hist_pres_try; [|intro]
    | progress (eauto with hist)
    | match goal with
      | |- context [match ?x with _ => _ end] => destruct x
      end ].

Ltac prim_pres :=
  intros s r s' H;
  repeat match type of H with
         | context [match ?x with _ => _ end] => destruct x
         end;
  inversion H; subst; reflexivity.

Section Preservation.
Variable E : env.

Lemma now_pres : hist_pres (now E).
Proof. prim_pres. Qed.
Lemma get_alert_config_pres u n : hist_pres (get_alert_config E u n).
Proof. unfold get_alert_config. destruct (env_configs E !! _) as [[m|c]|]; auto with hist. Qed.
Lemma get_exchange_api_key_pres u x : hist_pres (get_exchange_api_key E u x).
Proof. unfold get_exchange_api_key. prim_pres. Qed.
Lemma construct_client_pres x c : hist_pres (construct_client E x c).
Proof. unfold construct_client. prim_pres. Qed.
Lemma fetch_balance_pres h : hist_pres (fetch_balance E h).
Proof. unfold fetch_balance. prim_pres. Qed.
Lemma fetch_ticker_pres h y : hist_pres (fetch_ticker E h y).
Proof. unfold fetch_ticker. prim_pres. Qed.
Lemma create_order_pres h rq : hist_pres (create_order E h rq).
Proof. unfold create_order. prim_pres. Qed.
Lemma cache_get_pres k : hist_pres (cache_get k).
Proof. prim_pres. Qed.
Lemma cache_put_pres k h : hist_pres (cache_put k h).
Proof. prim_pres. Qed.
Lemma py_index_pres {A} (xs : list A) i : hist_pres (py_index xs i).
Proof. unfold py_index. destruct (xs !! i); auto with hist. Qed.
Lemma py_div_pres x y : hist_pres (py_div x y).
Proof. unfold py_div. destruct (Qeq_bool y 0); auto with hist. Qed.

#[local] Hint Resolve now_pres get_alert_config_pres get_exchange_api_key_pres
  construct_client_pres fetch_balance_pres fetch_ticker_pres create_order_pres
  cache_get_pres cache_put_pres py_index_pres py_div_pres : hist.

Lemma get_exchange_client_pres u x : hist_pres (get_exchange_client E u x).
Proof. unfold get_exchange_client. solve_pres. Qed.
#[local] Hint Resolve get_exchange_client_pres : hist.

Lemma determine_quantity_pres h c a y : hist_pres (determine_quantity E h c a y).
Proof. unfold determine_quantity. solve_pres. Qed.
#[local] Hint Resolve determine_quantity_pres : hist.

Lemma resolve_quantity_pres h c a y : hist_pres (resolve_quantity E h c a y).
Proof. unfold resolve_quantity. solve_pres. Qed.

Lemma dispatch_order_pres h c a y o d q : hist_pres (dispatch_order E h c a y o d q).
Proof. unfold dispatch_order. solve_pres. Qed.

End Preservation.

#[local] Hint Resolve now_pres get_alert_config_pres get_exchange_api_key_pres
  construct_client_pres fetch_balance_pres fetch_ticker_pres create_order_pres
  cache_get_pres cache_put_pres py_index_pres py_div_pres get_exchange_client_pres
  determine_quantity_pres resolve_quantity_pres dispatch_order_pres : hist.


Lemma hist_pres_exn_bind {A B} (m : M A) (f : A -> M B) :
  hist_pres m -> (forall x, hist_pres_exn (f x)) -> hist_pres_exn (bind m f).
Proof.
  intros Hm Hf s e s' H. unfold bind in H.
  destruct (m s) as [[e1|x] s1] eqn:E1.
  - inversion H; subst. eapply Hm; eauto.
  - rewrite (Hf x s1 e s' H). eapply Hm; eauto.
Qed.

Lemma hist_pres_exn_raise {A} e : hist_pres_exn (@raise A e).
Proof. intros s e' s' H. inversion H. reflexivity. Qed.

Lemma save_then_ret_exn {A} E (u : string) (rc : hist_rec) (x : A) :
  hist_pres_exn (bind (save_alert_history E u rc) (fun _ => ret x)).
Proof.
  intros s e s' H. unfold bind, save_alert_history in H.
  destruct (env_history_error E _); inversion H; reflexivity.
Qed.

Section Handler.
Variable E : env.

Lemma process_body_pres_exn a : hist_pres_exn (process_body E a).
Proof.
  unfold process_body. apply hist_pres_exn_bind; [auto with hist|intros [c|]].
  2: apply hist_pres_exn_raise.
  cbv zeta.
  do 4 (apply hist_pres_exn_bind; [auto with hist|intro]).
  apply save_then_ret_exn.
Qed.

(** When the handler returns a result it has written exactly one history
    entry, under [alert:<user_id>:<timestamp>] of that result. *)
Lemma process_inr_history a s r s' :
  process_tradingview_alert E a s = (inr r, s') ->
  exists rc,
    st_history s' = <[alert_key (al_user_id a) (or_timestamp r) := rc]> (st_history s) /\
    hr_timestamp rc = or_timestamp r /\ hr_success rc = or_success r /\
    hr_config_name rc = al_config_name a /\
    (or_success r = true -> hr_price rc = al_price a) /\
    (or_success r = false -> hr_message rc = or_message r).
Proof.
  unfold process_tradingview_alert, try_catch.
  destruct (process_body E a s) as [[e|r0] s1] eqn:Hb; intros H.
  - destruct e as [c d|msg]; [discriminate H|].
    pose proof (process_body_pres_exn a s _ s1 Hb) as Hh.
    cbv beta iota zeta delta [failure_path bind now save_alert_history ret] in H.
    match type of H with context [env_history_error E ?k] =>
      destruct (env_history_error E k) end; [discriminate H|].
    inversion H; subst. eexists. split.
    { cbn [st_history set_history or_timestamp]. rewrite Hh. reflexivity. }
    split; [reflexivity|]. split; [reflexivity|]. split; [reflexivity|].
    split; [discriminate|reflexivity].
  - inversion H; subst r0 s1. clear H.
    unfold process_body in Hb.
    inv_bind Hb. unfold get_alert_config in Hm.
    destruct (env_configs E !! config_key (al_user_id a) (al_config_name a)) as [[m|c]|];
      unfold ret, raise in Hm; inversion Hm; subst; [|discriminate Hb].
    clear Hm. inv_bind Hb. inv_bind Hb. inv_bind Hb. inv_bind Hb.
    unfold now in Hm2. inversion Hm2; subst.
    cbv beta iota zeta delta [bind save_alert_history ret] in Hb.
    match type of Hb with context [env_history_error E ?k] =>
      destruct (env_history_error E k) end; [discriminate Hb|].
    inversion Hb; subst.
    apply get_exchange_client_pres in Hm.
    apply resolve_quantity_pres in Hm0.
    apply dispatch_order_pres in Hm1.
    eexists. split.
    { cbn [st_history set_history tick or_timestamp]. rewrite Hm1, Hm0, Hm. reflexivity. }
    split; [reflexivity|]. split; [reflexivity|]. split; [reflexivity|].
    split; [reflexivity|discriminate].
Qed.

(** C1 (amended): the [try] block of the handler fails either with an
    HTTPException, which is re-raised to the caller with no history write, or
    with another exception, which becomes a failure [OrderResult] with message
    ["Error executing order: " ++ str(e)] and a failure history record, unless
    that history write raises in turn: its exception then leaves the
    handler.  No other exception leaves it. *)
Theorem process_failure_handling a s :
  (forall c d s1, process_body E a s = (inl (HTTPException c d), s1) ->
     process_tradingview_alert E a s = (inl (HTTPException c d), s1) /\
     st_history s1 = st_history s) /\
  (forall msg s1, process_body E a s = (inl (Exception msg), s1) ->
     let ts := env_clock E (st_clock s1) in
     let msg' := "Error executing order: " +:+ msg in
     (env_history_error E (alert_key (al_user_id a) ts) = None ->
       fst (process_tradingview_alert E a s) =
         inr {| or_success := false; or_order_id := None; or_message := Some msg';
                or_details := None; or_timestamp := ts |} /\
       st_history (snd (process_tradingview_alert E a s)) =
         <[alert_key (al_user_id a) ts :=
            {| hr_config_name := al_config_name a; hr_symbol := None; hr_side := None;
               hr_quantity := None; hr_price := None; hr_timestamp := ts;
               hr_success := false; hr_order_id := None; hr_details := None;
               hr_message := Some msg' |}]> (st_history s)) /\
     (forall m, env_history_error E (alert_key (al_user_id a) ts) = Some m ->
       fst (process_tradingview_alert E a s) = inl (Exception m) /\
       st_history (snd (process_tradingview_alert E a s)) = st_history s)) /\
  (forall e s', process_tradingview_alert E a s = (inl e, s') ->
     (exists c d, e = HTTPException c d) \/
     (exists msg s1 m, process_body E a s = (inl (Exception msg), s1) /\
        env_history_error E (alert_key (al_user_id a) (env_clock E (st_clock s1))) = Some m /\
        e = Exception m)).
Proof.
  split; [|split].
  - intros c d s1 Hb. split.
    + unfold process_tradingview_alert, try_catch. rewrite Hb. reflexivity.
    + exact (process_body_pres_exn a s _ s1 Hb).
  - intros msg s1 Hb. cbv zeta.
    pose proof (process_body_pres_exn a s _ s1 Hb) as Hh.
    unfold process_tradingview_alert, try_catch. rewrite Hb.
    cbv beta iota zeta delta [failure_path bind now save_alert_history ret fst snd].
    cbn [hr_timestamp or_timestamp]. split.
    + intros Hn. rewrite Hn.
      split; [reflexivity|]. cbn [st_history set_history tick]. rewrite <- Hh. reflexivity.
    + intros m Hm. rewrite Hm. split; [reflexivity|]. cbn [st_history tick]. exact Hh.
  - intros e s' H. unfold process_tradingview_alert, try_catch in H.
    destruct (process_body E a s) as [[e0|r0] s1] eqn:Hb; [|discriminate H].
    destruct e0 as [c d|msg].
    + left. inversion H; subst. eauto.
    + right. exists msg, s1.
      cbv beta iota zeta delta [failure_path bind now save_alert_history ret] in H.
      cbn [hr_timestamp or_timestamp] in H.
      destruct (env_history_error E (alert_key (al_user_id a) (env_clock E (st_clock s1))))
        as [m|]; inversion H; subst. exists m. auto.
Qed.

(** C2 (amended): an alert whose [config_name] has no stored configuration
    for [alert.user_id] makes the handler re-raise an HTTPException 404
    naming the configuration; the state (history, cache, calls) is
    unchanged. *)
Theorem process_missing_config a s :
  env_configs E !! config_key (al_user_id a) (al_config_name a) = None ->
  process_tradingview_alert E a s =
    (inl (HTTPException 404 ("Configuration '" +:+ al_config_name a +:+ "' not found")), s).
Proof.
  intros Hc. unfold process_tradingview_alert, try_catch, process_body, bind,
    get_alert_config, ret. rewrite Hc. reflexivity.
Qed.

(** C10: the success-path history record stores the alert's own price
    field, whatever price the order was placed at. *)
Theorem success_record_price a s r s' :
  process_tradingview_alert E a s = (inr r, s') -> or_success r = true ->
  exists rc, st_history s' !! alert_key (al_user_id a) (or_timestamp r) = Some rc /\
             hr_success rc = true /\ hr_price rc = al_price a.
Proof.
  intros H Hs. destruct (process_inr_history a s r s' H)
    as (rc & Hh & _ & Hsu & _ & Hp & _).
  exists rc. rewrite Hh, lookup_insert_eq. rewrite Hsu. auto.
Qed.

End Handler.

(** ** Exceptions a computation can raise *)


Lemma raises_only_bind {A B} P (m : M A) (f : A -> M B) :
  raises_only P m -> (forall x, raises_only P (f x)) -> raises_only P (bind m f).
Proof.
  intros Hm Hf s e s' H. unfold bind in H.
  destruct (m s) as [[e1|x] s1] eqn:E1.
  - inversion H; subst. eapply Hm; eauto.
  - eapply Hf; eauto.
Qed.

Lemma raises_only_ret {A} P (x : A) : raises_only P (ret x).
Proof. intros s e s' H. discriminate H. Qed.

Lemma raises_only_raise {A} (P : exn -> Prop) e : P e -> raises_only P (@raise A e).
Proof. intros He s e' s' H. inversion H; subst. exact He. Qed.


Lemma determine_not_undetermined E h c a y :
  raises_only not_undetermined (determine_quantity E h c a y).
Proof.
  unfold determine_quantity.
  destruct (truthy (cfg_quantity c)); [apply raises_only_ret|].
  destruct (truthy (cfg_quantity_percentage c)); [|apply raises_only_ret].
  apply raises_only_bind.
  { intros s e s' H. unfold fetch_balance in H.
    destruct (env_fetch_balance E _ h); inversion H; subst; discriminate. }
  intros bal. apply raises_only_bind.
  { intros s e s' H. unfold py_index, ret, raise in H.
    destruct (_ !! 1); inversion H; subst; discriminate. }
  intros quote. destruct (bal !! quote) as [avail|].
  2: { apply raises_only_raise. intros He. inversion He. }
  apply raises_only_bind.
  { intros s e s' H. destruct (truthy (al_price a)).
    - discriminate H.
    - unfold fetch_ticker in H. destruct (env_fetch_ticker E _ h y);
        inversion H; subst; discriminate. }
  intros p. apply raises_only_bind; [|intros; apply raises_only_ret].
  intros s e s' H. unfold py_div, ret, raise in H.
  destruct (Qeq_bool p 0); inversion H; subst; discriminate.
Qed.

Section Components.
Variable E : env.

(** C6: a configured quantity that is set and positive is returned as is,
    with no call made (the state, hence the call log, is unchanged). *)
Theorem resolve_fixed_quantity h cfg a symbol q s :
  cfg_quantity cfg = Some q -> (0 < q)%Q ->
  resolve_quantity E h cfg a symbol s = (inr q, s).
Proof.
  intros Hq Hp. unfold resolve_quantity, determine_quantity, bind, ret.
  rewrite Hq, (truthy_pos q Hp), (truthy_pos q Hp). reflexivity.
Qed.

Lemma resolve_fst h cfg a y s :
  fst (resolve_quantity E h cfg a y s) =
  match fst (determine_quantity E h cfg a y s) with
  | inl e => inl e
  | inr oq => match truthy oq with
              | None => inl (HTTPException 400 "Could not determine order quantity")
              | Some q => inr q
              end
  end.
Proof.
  unfold resolve_quantity, bind.
  destruct (determine_quantity E h cfg a y s) as [[e|oq] s1]; cbn [fst]; [reflexivity|].
  destruct (truthy oq); reflexivity.
Qed.

(** The percentage branch of lines 178-192, run to its end. *)
Lemma determine_pct_run h cfg a y s pct bal quote avail p :
  truthy (cfg_quantity cfg) = None ->
  truthy (cfg_quantity_percentage cfg) = Some pct ->
  env_fetch_balance E (length (st_log s)) h = inr bal ->
  split_on "/" y !! 1 = Some quote ->
  bal !! quote = Some avail ->
  (truthy (al_price a) = Some p \/
   (truthy (al_price a) = None /\ env_fetch_ticker E (S (length (st_log s))) h y = inr p)) ->
  fst (determine_quantity E h cfg a y s) =
    if Qeq_bool p 0 then inl (Exception "float division by zero")
    else inr (Some ((avail * pct / 100) / p)%Q).
Proof.
  intros Hq Hpct Hbal Hsplit Ha Hp.
  unfold determine_quantity. rewrite Hq, Hpct.
  cbv beta iota delta [bind fetch_balance py_index ret raise py_div].
  rewrite Hbal, Hsplit, Ha.
  destruct Hp as [Hp | [Hp Ht]]; rewrite Hp.
  - destruct (Qeq_bool p 0); reflexivity.
  - unfold fetch_ticker.
    replace (length (st_log (log_call (CFetchBalance (h_id h)) s)))
      with (S (length (st_log s)))
      by (cbn [st_log log_call]; rewrite length_app; simpl; lia).
    rewrite Ht. destruct (Qeq_bool p 0); reflexivity.
Qed.

(** The ways lines 178-192 can end without raising. *)
Lemma determine_inr_cases h cfg a y s oq :
  fst (determine_quantity E h cfg a y s) = inr oq ->
  (exists q, truthy (cfg_quantity cfg) = Some q /\ oq = Some q) \/
  (truthy (cfg_quantity cfg) = None /\ truthy (cfg_quantity_percentage cfg) = None /\
   oq = None) \/
  (truthy (cfg_quantity cfg) = None /\
   exists pct bal quote avail p,
     truthy (cfg_quantity_percentage cfg) = Some pct /\
     env_fetch_balance E (length (st_log s)) h = inr bal /\
     split_on "/" y !! 1 = Some quote /\ bal !! quote = Some avail /\
     (truthy (al_price a) = Some p \/
      (truthy (al_price a) = None /\ env_fetch_ticker E (S (length (st_log s))) h y = inr p)) /\
     ~ (p == 0)%Q /\ oq = Some ((avail * pct / 100) / p)%Q).
Proof.
  unfold determine_quantity.
  destruct (truthy (cfg_quantity cfg)) as [q|] eqn:Hq.
  { intros H. injection H as <-. left. eauto. }
  destruct (truthy (cfg_quantity_percentage cfg)) as [pct|] eqn:Hp.
  2: { intros H. injection H as <-. right; left. auto. }
  intros H. right; right. split; [reflexivity|].
  cbv beta iota delta [bind fetch_balance py_index ret raise py_div fst] in H.
  destruct (env_fetch_balance E (length (st_log s)) h) as [m|bal] eqn:Hb; [discriminate H|].
  destruct (split_on "/" y !! 1) as [quote|] eqn:Hs; [|discriminate H].
  destruct (bal !! quote) as [avail|] eqn:Ha; [|discriminate H].
  destruct (truthy (al_price a)) as [p|] eqn:Hpr.
  - destruct (Qeq_bool p 0) eqn:Hz; [discriminate H|]. injection H as <-.
    exists pct, bal, quote, avail, p.
    repeat (split; [solve [eauto | apply Qeq_bool_neq, Hz] |]). reflexivity.
  - unfold fetch_ticker in H.
    replace (length (st_log (log_call (CFetchBalance (h_id h)) s)))
      with (S (length (st_log s)))
      in H by (cbn [st_log log_call]; rewrite length_app; simpl; lia).
    destruct (env_fetch_ticker E (S (length (st_log s))) h y) as [m|p] eqn:Ht; [discriminate H|].
    destruct (Qeq_bool p 0) eqn:Hz; [discriminate H|]. injection H as <-.
    exists pct, bal, quote, avail, p.
    repeat (split; [solve [eauto | apply Qeq_bool_neq, Hz] |]). reflexivity.
Qed.

(** C7 (amended): the [if not quantity] guard.  A resolved quantity is never
    zero.  Resolution fails with HTTP 400 "Could not determine order
    quantity" exactly when there is no truthy fixed quantity and either no
    truthy percentage or a percentage computation (balance found, quote
    currency present, non-zero price) that gives 0; the earlier failures of
    lines 178-192 raise their own errors instead.  A truthy fixed quantity
    is returned as it is, and a non-zero computed quantity is returned as
    computed: negative values pass. *)
Theorem resolve_quantity_guard h cfg a symbol s :
  (forall q s', resolve_quantity E h cfg a symbol s = (inr q, s') -> ~ (q == 0)%Q) /\
  (fst (resolve_quantity E h cfg a symbol s) =
     inl (HTTPException 400 "Could not determine order quantity") <->
   truthy (cfg_quantity cfg) = None /\
   (truthy (cfg_quantity_percentage cfg) = None \/
    exists pct bal quote avail p,
      truthy (cfg_quantity_percentage cfg) = Some pct /\
      env_fetch_balance E (length (st_log s)) h = inr bal /\
      split_on "/" symbol !! 1 = Some quote /\ bal !! quote = Some avail /\
      (truthy (al_price a) = Some p \/
       (truthy (al_price a) = None /\
        env_fetch_ticker E (S (length (st_log s))) h symbol = inr p)) /\
      ~ (p == 0)%Q /\ ((avail * pct / 100) / p == 0)%Q)) /\
  (forall q, truthy (cfg_quantity cfg) = Some q ->
     resolve_quantity E h cfg a symbol s = (inr q, s)) /\
  (forall pct bal quote avail p,
     truthy (cfg_quantity cfg) = None ->
     truthy (cfg_quantity_percentage cfg) = Some pct ->
     env_fetch_balance E (length (st_log s)) h = inr bal ->
     split_on "/" symbol !! 1 = Some quote -> bal !! quote = Some avail ->
     (truthy (al_price a) = Some p \/
      (truthy (al_price a) = None /\
       env_fetch_ticker E (S (length (st_log s))) h symbol = inr p)) ->
     ~ (p == 0)%Q -> ~ ((avail * pct / 100) / p == 0)%Q ->
     fst (resolve_quantity E h cfg a symbol s) = inr ((avail * pct / 100) / p)%Q).
Proof.
  assert (Hnz : forall p, ~ (p == 0)%Q -> Qeq_bool p 0 = false).
  { intros p Hp. destruct (Qeq_bool p 0) eqn:Hz; [|reflexivity].
    apply Qeq_bool_eq in Hz. contradiction. }
  split; [|split; [|split]].
  - intros q s' H. unfold resolve_quantity, bind in H.
    destruct (determine_quantity E h cfg a symbol s) as [[e|oq] s1]; [discriminate H|].
    destruct (truthy oq) as [q'|] eqn:T; inversion H; subst.
    apply truthy_Some in T. tauto.
  - rewrite resolve_fst. split.
    + destruct (determine_quantity E h cfg a symbol s) as [[e|oq] s1] eqn:Hd; cbn [fst].
      * intros He. injection He as ->.
        exfalso. exact (determine_not_undetermined E h cfg a symbol s _ s1 Hd eq_refl).
      * destruct (truthy oq) as [q|] eqn:T; [discriminate|]. intros _.
        assert (Hf : fst (determine_quantity E h cfg a symbol s) = inr oq) by (rewrite Hd; reflexivity).
        destruct (determine_inr_cases h cfg a symbol s oq Hf)
          as [(q & Hq & ->) | [(Hq & Hp & _) | (Hq & pct & bal & quote & avail & p &
                                              Hpct & Hb & Hs & Ha & Hpr & Hp0 & ->)]].
        -- apply truthy_Some in Hq as [_ Hq]. exfalso. exact (Hq (truthy_None_Some q T)).
        -- auto.
        -- split; [exact Hq|]. right. exists pct, bal, quote, avail, p.
           repeat (split; [assumption|]). exact (truthy_None_Some _ T).
    + intros [Hq [Hp | (pct & bal & quote & avail & p & Hpct & Hb & Hs & Ha & Hpr & Hp0 & Hz)]].
      * unfold determine_quantity. rewrite Hq, Hp. reflexivity.
      * rewrite (determine_pct_run h cfg a symbol s pct bal quote avail p Hq Hpct Hb Hs Ha Hpr).
        rewrite (Hnz p Hp0).
        destruct (truthy (Some ((avail * pct / 100) / p)%Q)) as [c|] eqn:T; [|reflexivity].
        apply truthy_Some in T as [[= <-] Hc]. contradiction.
  - intros q Hq. unfold resolve_quantity, determine_quantity, bind, ret. rewrite Hq.
    apply truthy_Some in Hq as [_ Hn]. rewrite (truthy_nonzero q Hn). reflexivity.
  - intros pct bal quote avail p Hq Hpct Hb Hs Ha Hpr Hp0 Hc.
    rewrite resolve_fst,
      (determine_pct_run h cfg a symbol s pct bal quote avail p Hq Hpct Hb Hs Ha Hpr),
      (Hnz p Hp0), (truthy_nonzero _ Hc).
    reflexivity.
Qed.

(** C4 (amended): with no truthy fixed quantity and a truthy percentage, the
    code fetches the balance, takes the quote currency [symbol.split("/")[1]]
    (HTTP 400 "No balance found for ..." when it is absent), takes the alert
    price when it is truthy (non-zero, negative included) and otherwise the
    ticker's last price, and divides; a zero price raises ZeroDivisionError. *)
Theorem determine_quantity_percentage h cfg a symbol s pct bal quote :
  truthy (cfg_quantity cfg) = None ->
  truthy (cfg_quantity_percentage cfg) = Some pct ->
  env_fetch_balance E (length (st_log s)) h = inr bal ->
  split_on "/" symbol !! 1 = Some quote ->
  (bal !! quote = None ->
     fst (determine_quantity E h cfg a symbol s) =
       inl (HTTPException 400 ("No balance found for " +:+ quote))) /\
  (forall avail p, bal !! quote = Some avail ->
     (truthy (al_price a) = Some p \/
      (truthy (al_price a) = None /\
       env_fetch_ticker E (S (length (st_log s))) h symbol = inr p)) ->
     fst (determine_quantity E h cfg a symbol s) =
       if Qeq_bool p 0 then inl (Exception "float division by zero")
       else inr (Some ((avail * pct / 100) / p)%Q)).
Proof.
  intros Hq Hpct Hbal Hsplit.
  unfold determine_quantity. rewrite Hq, Hpct.
  cbv beta iota delta [bind fetch_balance py_index ret raise py_div].
  rewrite Hbal, Hsplit.
  split.
  - intros Hn. rewrite Hn. reflexivity.
  - intros avail p Ha Hp. rewrite Ha.
    destruct Hp as [Hp | [Hp Ht]]; rewrite Hp.
    + destruct (Qeq_bool p 0); reflexivity.
    + unfold fetch_ticker.
      replace (length (st_log (log_call (CFetchBalance (h_id h)) s)))
        with (S (length (st_log s)))
        by (cbn [st_log log_call]; rewrite length_app; simpl; lia).
      rewrite Ht. destruct (Qeq_bool p 0); reflexivity.
Qed.

(** C3 (amended): an order type outside the four recognised ones is not
    rejected: dispatch places no order, raises nothing and yields no
    receipt.  When the configuration is found, the client and the quantity
    are obtained and the history write succeeds, the handler returns a
    success [OrderResult] with no [order_id] and no [details], and writes a
    success record with no order id. *)
Theorem dispatch_unknown_type a s cfg h s1 q s2 :
  let u := al_user_id a in
  let ot := cfg_order_type cfg in
  let side := if String.eqb (cfg_position_side cfg) "long" then "buy" else "sell" in
  let ts := env_clock E (st_clock s2) in
  env_configs E !! config_key u (al_config_name a) = Some (inr cfg) ->
  ot <> "market" -> ot <> "limit" -> ot <> "stop_loss" -> ot <> "take_profit" ->
  get_exchange_client E u (cfg_exchange cfg) s = (inr h, s1) ->
  resolve_quantity E h cfg a (cfg_symbol cfg) s1 = (inr q, s2) ->
  env_history_error E (alert_key u ts) = None ->
  (forall h' y d q' t, dispatch_order E h' cfg a y ot d q' t = (inr None, t)) /\
  process_tradingview_alert E a s =
    (inr {| or_success := true; or_order_id := None;
            or_message := Some "Order executed successfully";
            or_details := None; or_timestamp := ts |},
     set_history
       (<[alert_key u ts :=
           {| hr_config_name := al_config_name a; hr_symbol := Some (cfg_symbol cfg);
              hr_side := Some side; hr_quantity := Some q; hr_price := al_price a;
              hr_timestamp := ts; hr_success := true; hr_order_id := None;
              hr_details := None; hr_message := None |}]> (st_history s2))
       (tick s2)).
Proof.
  cbv zeta. intros Hc H1 H2 H3 H4 Hg Hq Hn.
  assert (Hd : forall h' y d q' t,
             dispatch_order E h' cfg a y (cfg_order_type cfg) d q' t = (inr None, t)).
  { intros. unfold dispatch_order.
    apply String.eqb_neq in H1, H2, H3, H4. rewrite H1, H2, H3, H4. reflexivity. }
  split; [exact Hd|].
  unfold process_tradingview_alert, try_catch.
  assert (Hb : process_body E a s =
    (inr {| or_success := true; or_order_id := None;
            or_message := Some "Order executed successfully";
            or_details := None; or_timestamp := env_clock E (st_clock s2) |},
     set_history
       (<[alert_key (al_user_id a) (env_clock E (st_clock s2)) :=
           {| hr_config_name := al_config_name a; hr_symbol := Some (cfg_symbol cfg);
              hr_side := Some (if String.eqb (cfg_position_side cfg) "long" then "buy" else "sell");
              hr_quantity := Some q; hr_price := al_price a;
              hr_timestamp := env_clock E (st_clock s2); hr_success := true;
              hr_order_id := None; hr_details := None; hr_message := None |}]>
          (st_history s2))
       (tick s2))).
  { unfold process_body.
    rewrite (bind_inr (get_alert_config E (al_user_id a) (al_config_name a)) _ s (Some cfg) s)
      by (unfold get_alert_config; rewrite Hc; reflexivity).
    rewrite (bind_inr _ _ s h s1 Hg). cbv zeta.
    rewrite (bind_inr _ _ s1 q s2 Hq).
    rewrite (bind_inr _ _ s2 None s2 (Hd _ _ _ _ _)).
    cbv beta iota zeta delta [bind now save_alert_history ret hr_timestamp or_timestamp
                         or_order_id or_details].
    rewrite Hn. reflexivity. }
  rewrite Hb. reflexivity.
Qed.

Lemma order_price_truthy cfg a p :
  truthy (al_price a) = Some p \/
  (truthy (al_price a) = None /\ truthy (cfg_price cfg) = Some p) ->
  truthy (order_price cfg a) = Some p.
Proof.
  unfold order_price. intros [Hp | [Hp Hc]]; rewrite Hp; [|exact Hc].
  apply truthy_nonzero. apply truthy_Some in Hp. tauto.
Qed.

Lemma order_price_missing cfg a :
  truthy (al_price a) = None -> truthy (cfg_price cfg) = None ->
  truthy (order_price cfg a) = None.
Proof. unfold order_price. intros Hp Hc. rewrite Hp. exact Hc. Qed.

Lemma create_order_snd h rq s :
  snd (create_order E h rq s) = log_call (CCreateOrder (h_id h) rq) s.
Proof. unfold create_order. destruct (env_create_order E _ h rq); reflexivity. Qed.

(** C5 (amended): for limit, stop_loss and take_profit the price is the
    alert price when it is truthy (present and non-zero), otherwise the
    config price; when that is absent or zero dispatch raises HTTP 400
    without calling the exchange.  A market order never raises a price
    error (nor any HTTPException). *)
Theorem dispatch_order_price h cfg a symbol side q s :
  (forall ot, ot = "limit" \/ ot = "stop_loss" \/ ot = "take_profit" ->
     (truthy (al_price a) = None -> truthy (cfg_price cfg) = None ->
        exists d, dispatch_order E h cfg a symbol ot side q s = (inl (HTTPException 400 d), s)) /\
     (forall p, truthy (al_price a) = Some p \/
                (truthy (al_price a) = None /\ truthy (cfg_price cfg) = Some p) ->
        exists rq, snd (dispatch_order E h cfg a symbol ot side q s) =
                     log_call (CCreateOrder (h_id h) rq) s /\ rq_price rq = Some p)) /\
  (forall c d, fst (dispatch_order E h cfg a symbol "market" side q s) <>
               inl (HTTPException c d)).
Proof.
  split.
  - intros ot Hot. split.
    + intros Hp Hc. pose proof (order_price_missing cfg a Hp Hc) as Hm.
      destruct Hot as [-> | [-> | ->]]; unfold dispatch_order; cbn - [order_price truthy];
        rewrite Hm; eexists; reflexivity.
    + intros p Hp. pose proof (order_price_truthy cfg a p Hp) as Hm.
      destruct Hot as [-> | [-> | ->]]; unfold dispatch_order; cbn - [order_price truthy];
        rewrite Hm; unfold bind;
        match goal with
        | |- context [create_order E h ?rq s] =>
            exists rq; split; [|reflexivity];
            rewrite <- (create_order_snd h rq s);
            destruct (create_order E h rq s) as [[e|r] s']; reflexivity
        end.
  - intros c d. unfold dispatch_order; cbn - [create_order].
    unfold bind, create_order. destruct (env_create_order E _ h _); discriminate.
Qed.

(** C9: the client cache.  A cached entry is returned with no other effect
    (no vault read); on a miss a successful call reads the vault, constructs
    one client and caches it under [user_id:exchange_name]; so a second call
    returns the same handle and changes nothing. *)
Theorem get_exchange_client_cache u x s :
  (forall h, st_cache s !! client_key u x = Some h ->
     get_exchange_client E u x s = (inr h, s)) /\
  (forall h s', st_cache s !! client_key u x = None ->
     get_exchange_client E u x s = (inr h, s') ->
     st_cache s' = <[client_key u x := h]> (st_cache s) /\
     st_log s' = (st_log s ++ [CVaultGet u x; CConstruct x])%list) /\
  (forall h1 s1 h2 s2,
     get_exchange_client E u x s = (inr h1, s1) ->
     get_exchange_client E u x s1 = (inr h2, s2) ->
     h2 = h1 /\ s2 = s1 /\
     (st_log s1 = st_log s \/ st_log s1 = (st_log s ++ [CVaultGet u x; CConstruct x])%list)).
Proof.
  assert (Hit : forall s0 h, st_cache s0 !! client_key u x = Some h ->
            get_exchange_client E u x s0 = (inr h, s0)).
  { intros s0 h Hh. unfold get_exchange_client, bind, cache_get. rewrite Hh. reflexivity. }
  assert (Miss : forall h s', st_cache s !! client_key u x = None ->
     get_exchange_client E u x s = (inr h, s') ->
     st_cache s' = <[client_key u x := h]> (st_cache s) /\
     st_log s' = (st_log s ++ [CVaultGet u x; CConstruct x])%list).
  { intros h s' Hn H. unfold get_exchange_client, bind at 1, cache_get in H.
    rewrite Hn in H. unfold bind at 1, get_exchange_api_key in H.
    destruct (env_vault E !! exchange_key u x) as [[msg|c]|]; [discriminate H| |discriminate H].
    unfold try_catch, bind, construct_client, cache_put, ret, raise in H.
    destruct (env_construct_error E x c); inversion H; subst.
    cbn. rewrite <- app_assoc. auto. }
  split; [exact (Hit s)|]. split; [exact Miss|].
  intros h1 s1 h2 s2 H1 H2.
  destruct (st_cache s !! client_key u x) as [h|] eqn:Hc.
  - rewrite (Hit s h Hc) in H1. inversion H1; subst.
    rewrite (Hit s1 h1 Hc) in H2. inversion H2; subst. auto.
  - destruct (Miss h1 s1 eq_refl H1) as [Hcache Hlog].
    assert (Hh1 : st_cache s1 !! client_key u x = Some h1)
      by (rewrite Hcache; apply lookup_insert_eq).
    rewrite (Hit s1 h1 Hh1) in H2. inversion H2; subst. auto.
Qed.

End Components.

(** ** Nothing reads the history *)



Lemma hist_indep_bind {A B} (m : M A) (f : A -> M B) :
  hist_indep m -> (forall x, hist_indep (f x)) -> hist_indep (bind m f).
Proof.
  intros Hm Hf s t Hst. unfold bind.
  destruct (Hm s t Hst) as [Hr Hs].
  destruct (m s) as [[e1|x1] s1], (m t) as [[e2|x2] t1]; cbn in Hr, Hs;
    inversion Hr; subst; [split; [reflexivity|exact Hs]|apply Hf; exact Hs].
Qed.

Lemma hist_indep_try {A} (m : M A) (h : exn -> M A) :
  hist_indep m -> (forall e, hist_indep (h e)) -> hist_indep (try_catch m h).
Proof.
  intros Hm Hh s t Hst. unfold try_catch.
  destruct (Hm s t Hst) as [Hr Hs].
  destruct (m s) as [[e1|x1] s1], (m t) as [[e2|x2] t1]; cbn in Hr, Hs;
    inversion Hr; subst; [apply Hh; exact Hs|split; [reflexivity|exact Hs]].
Qed.

Ltac prim_indep :=
  intros [c1 h1 l1 k1] [c2 h2 l2 k2] (Hc & Hl & Hk); cbn in Hc, Hl, Hk; subst;
  cbn; repeat case_match; cbn;
  repeat split.

Lemma hist_indep_ret {A} (x : A) : hist_indep (ret x).
Proof. prim_indep. Qed.
Lemma hist_indep_raise {A} e : hist_indep (@raise A e).
Proof. prim_indep. Qed.

#[local] Hint Resolve hist_indep_ret hist_indep_raise : hist.

Ltac solve_indep :=
  repeat first
    [ apply hist_indep_bind; [|intro]
    | apply hist_indep_try; [|intro]
    | progress (eauto with hist)
    | match goal with
      | |- context [match ?x with _ => _ end] => destruct x
      end ].

Section Independence.
Variable E : env.

Lemma now_indep : hist_indep (now E).
Proof. unfold now. prim_indep. Qed.
Lemma get_alert_config_indep u n : hist_indep (get_alert_config E u n).
Proof. unfold get_alert_config. destruct (env_configs E !! _) as [[m|c]|]; auto with hist. Qed.
Lemma get_exchange_api_key_indep u x : hist_indep (get_exchange_api_key E u x).
Proof. unfold get_exchange_api_key. prim_indep. Qed.
Lemma construct_client_indep x c : hist_indep (construct_client E x c).
Proof. unfold construct_client. prim_indep. Qed.
Lemma fetch_balance_indep h : hist_indep (fetch_balance E h).
Proof. unfold fetch_balance. prim_indep. Qed.
Lemma fetch_ticker_indep h y : hist_indep (fetch_ticker E h y).
Proof. unfold fetch_ticker. prim_indep. Qed.
Lemma create_order_indep h rq : hist_indep (create_order E h rq).
Proof. unfold create_order. prim_indep. Qed.
Lemma cache_get_indep k : hist_indep (cache_get k).
Proof. unfold cache_get. prim_indep. Qed.
Lemma cache_put_indep k h : hist_indep (cache_put k h).
Proof. unfold cache_put. prim_indep. Qed.
Lemma save_alert_history_indep u r : hist_indep (save_alert_history E u r).
Proof. unfold save_alert_history. prim_indep. Qed.
Lemma py_index_indep {A} (xs : list A) i : hist_indep (py_index xs i).
Proof. unfold py_index. destruct (xs !! i); auto with hist. Qed.
Lemma py_div_indep x y : hist_indep (py_div x y).
Proof. unfold py_div. destruct (Qeq_bool y 0); auto with hist. Qed.

#[local] Hint Resolve now_indep get_alert_config_indep get_exchange_api_key_indep
  construct_client_indep fetch_balance_indep fetch_ticker_indep create_order_indep
  cache_get_indep cache_put_indep save_alert_history_indep py_index_indep
  py_div_indep : hist.

Lemma get_exchange_client_indep u x : hist_indep (get_exchange_client E u x).
Proof. unfold get_exchange_client. solve_indep. Qed.
#[local] Hint Resolve get_exchange_client_indep : hist.

Lemma determine_quantity_indep h c a y : hist_indep (determine_quantity E h c a y).
Proof. unfold determine_quantity. solve_indep. Qed.
#[local] Hint Resolve determine_quantity_indep : hist.

Lemma resolve_quantity_indep h c a y : hist_indep (resolve_quantity E h c a y).
Proof. unfold resolve_quantity. solve_indep. Qed.
#[local] Hint Resolve resolve_quantity_indep : hist.

Lemma dispatch_order_indep h c a y o d q : hist_indep (dispatch_order E h c a y o d q).
Proof. unfold dispatch_order. solve_indep. Qed.
#[local] Hint Resolve dispatch_order_indep : hist.

Lemma process_indep a : hist_indep (process_tradingview_alert E a).
Proof.
  unfold process_tradingview_alert, process_body, failure_path. cbv zeta. solve_indep.
Qed.

End Independence.

Lemma app_inj_prefix (p t1 t2 : string) : p +:+ t1 = p +:+ t2 -> t1 = t2.
Proof.
  induction p as [|c p IH]; simpl; [auto|]. intros H. injection H. exact IH.
Qed.

Lemma alert_key_inj u t1 t2 : alert_key u t1 = alert_key u t2 -> t1 = t2.
Proof.
  unfold alert_key. intros H.
  apply app_inj_prefix, app_inj_prefix, app_inj_prefix in H. exact H.
Qed.

(** C8 (amended): identical alerts are not deduplicated: the run of the
    second one (its result and its exchange calls) does not depend on the
    history written by the first.  When both succeed, each writes one record
    under [alert:<user_id>:<timestamp>]; both records are kept when the
    timestamps differ, and when they are equal the second record replaces
    the first. *)
Theorem repeated_alert E a s r1 s1 r2 s2 :
  process_tradingview_alert E a s = (r1, s1) ->
  process_tradingview_alert E a s1 = (r2, s2) ->
  (forall h, fst (process_tradingview_alert E a (set_history h s1)) = r2 /\
             st_log (snd (process_tradingview_alert E a (set_history h s1))) = st_log s2) /\
  (forall res1 res2, r1 = inr res1 -> r2 = inr res2 ->
     let k1 := alert_key (al_user_id a) (or_timestamp res1) in
     let k2 := alert_key (al_user_id a) (or_timestamp res2) in
     exists rc1 rc2,
       st_history s1 = <[k1 := rc1]> (st_history s) /\
       st_history s2 = <[k2 := rc2]> (st_history s1) /\
       (or_timestamp res1 <> or_timestamp res2 ->
          st_history s2 !! k1 = Some rc1 /\ st_history s2 !! k2 = Some rc2) /\
       (or_timestamp res1 = or_timestamp res2 ->
          st_history s2 = <[k1 := rc2]> (st_history s))).
Proof.
  intros H1 H2. split.
  - intros h.
    assert (Hsb : same_but_history (set_history h s1) s1) by (repeat split).
    destruct (process_indep E a _ _ Hsb) as [Hr [_ [Hl _]]].
    rewrite H2 in Hr, Hl. auto.
  - intros res1 res2 -> ->. cbv zeta.
    destruct (process_inr_history E a s res1 s1 H1) as (rc1 & Hh1 & _).
    destruct (process_inr_history E a s1 res2 s2 H2) as (rc2 & Hh2 & _).
    exists rc1, rc2. split; [exact Hh1|]. split; [exact Hh2|]. split.
    + intros Hts.
      assert (Hne : alert_key (al_user_id a) (or_timestamp res2) <>
                    alert_key (al_user_id a) (or_timestamp res1))
        by (intros Hk; apply alert_key_inj in Hk; congruence).
      rewrite Hh2, lookup_insert_ne by exact Hne.
      split; [rewrite Hh1; apply lookup_insert_eq | apply lookup_insert_eq].
    + intros Hts. rewrite Hh2, Hh1, <- Hts. apply insert_insert_eq.
Qed.

(** * Concrete instances and counterexamples *)

(** C1: with no stored credentials, client acquisition (step 2) fails with an
    HTTPException that the handler re-raises; no result, no history record.
    With Redis unreachable, the configuration read raises, the failure
    record cannot be written, and Redis's own error leaves the handler. *)
Lemma missing_keys_propagate :
  process_tradingview_alert (world (configs_of "c1" cfg_c1) ∅ accepting ticking) alert_c1 st0 =
    (inl (HTTPException 404 "API keys not found for exchange binance"),
     {| st_cache := ∅; st_history := ∅; st_log := [CVaultGet "u1" "binance"]; st_clock := 0 |}) /\
  process_tradingview_alert E_down alert_c1 st0 = (inl (Exception redis_down), tick st0).
Proof. vm_compute. split; reflexivity. Qed.

Lemma process_failure_handling_witness :
  let E := world (configs_of "c1" cfg_c1) vault_u1 rejecting ticking in
  process_body E alert_c1 st0 =
    (inl (Exception "insufficient funds"), snd (process_body E alert_c1 st0)) /\
  fst (process_tradingview_alert E alert_c1 st0) =
    inr {| or_success := false; or_order_id := None;
           or_message := Some ("Error executing order: " +:+ "insufficient funds");
           or_details := None;
           or_timestamp := env_clock E (st_clock (snd (process_body E alert_c1 st0))) |}.
Proof.
  cbv zeta.
  assert (Hb : process_body (world (configs_of "c1" cfg_c1) vault_u1 rejecting ticking) alert_c1 st0 =
    (inl (Exception "insufficient funds"),
     snd (process_body (world (configs_of "c1" cfg_c1) vault_u1 rejecting ticking) alert_c1 st0)))
    by (vm_compute; reflexivity).
  split; [exact Hb|].
  exact (proj1 (proj1 (proj1 (proj2 (process_failure_handling
           (world (configs_of "c1" cfg_c1) vault_u1 rejecting ticking) alert_c1 st0)) _ _ Hb)
           eq_refl)).
Defined.

(** C2: an alert naming an unknown configuration gets no [OrderResult] and
    leaves the history empty. *)
Lemma missing_config_no_result :
  (forall r s', process_tradingview_alert E_ok alert_c9 st0 <> (inr r, s')) /\
  st_history (snd (process_tradingview_alert E_ok alert_c9 st0)) = ∅.
Proof.
  split.
  - intros r s'. vm_compute. discriminate.
  - vm_compute. reflexivity.
Qed.

Lemma process_missing_config_witness :
  env_configs E_ok !! config_key "u1" "c9" = None /\
  process_tradingview_alert E_ok alert_c9 st0 =
    (inl (HTTPException 404 ("Configuration '" +:+ "c9" +:+ "' not found")), st0).
Proof.
  split; [vm_compute; reflexivity|].
  apply (process_missing_config E_ok alert_c9 st0).
  vm_compute. reflexivity.
Defined.

(** C3: a configuration with order type ["trailing"] yields a success result
    with no order id, and no order is sent to the exchange. *)
Lemma unknown_type_reports_success :
  let E := world (configs_of "c1" (with_type "trailing" cfg_c1)) vault_u1 accepting ticking in
  fst (process_tradingview_alert E alert_c1 st0) =
    inr {| or_success := true; or_order_id := None;
           or_message := Some "Order executed successfully";
           or_details := None; or_timestamp := "0" |} /\
  st_log (snd (process_tradingview_alert E alert_c1 st0)) =
    [CVaultGet "u1" "binance"; CConstruct "binance"].
Proof. vm_compute. split; reflexivity. Qed.

Lemma dispatch_unknown_type_witness :
  get_exchange_client E_trailing "u1" "binance" st0 = (inr h1, st_client) /\
  resolve_quantity E_trailing h1 cfg_trailing alert_c1 "BTC/USDT" st_client =
    (inr (1 # 100)%Q, st_client) /\
  fst (process_tradingview_alert E_trailing alert_c1 st0) =
    inr {| or_success := true; or_order_id := None;
           or_message := Some "Order executed successfully";
           or_details := None; or_timestamp := "0" |}.
Proof.
  assert (Hg : get_exchange_client E_trailing "u1" "binance" st0 = (inr h1, st_client))
    by (vm_compute; reflexivity).
  assert (Hq : resolve_quantity E_trailing h1 cfg_trailing alert_c1 "BTC/USDT" st_client =
                 (inr (1 # 100)%Q, st_client))
    by (vm_compute; reflexivity).
  split; [exact Hg|]. split; [exact Hq|].
  exact (f_equal fst (proj2 (dispatch_unknown_type E_trailing alert_c1 st0 cfg_trailing
           h1 st_client (1 # 100)%Q st_client
           ltac:(vm_compute; reflexivity) ltac:(vm_compute; discriminate)
           ltac:(vm_compute; discriminate) ltac:(vm_compute; discriminate)
           ltac:(vm_compute; discriminate) Hg Hq ltac:(vm_compute; reflexivity)))).
Defined.

(** C4: a negative alert price is used as the current price (the ticker is
    not called), giving a negative quantity. *)
Lemma negative_alert_price_used :
  exists q, fst (determine_quantity E_ok h0 cfg_pct (priced (-50000) alert_c1) "BTC/USDT" st0) =
              inr (Some q) /\ (q == -(1 # 500))%Q /\
            st_log (snd (determine_quantity E_ok h0 cfg_pct (priced (-50000) alert_c1) "BTC/USDT" st0)) =
              [CFetchBalance 0].
Proof.
  eexists. split; [vm_compute; reflexivity|]. split; [reflexivity|].
  vm_compute. reflexivity.
Qed.

(** The spec's example: 1000 USDT free, 10 percent, ticker at 50000. *)
Lemma determine_quantity_percentage_witness :
  fst (determine_quantity E_ok h0 cfg_pct alert_c1 "BTC/USDT" st0) =
    (if Qeq_bool 50000 0 then inl (Exception "float division by zero")
     else inr (Some ((1000 * 10 / 100) / 50000)%Q)) /\
  ((1000 * 10 / 100) / 50000 == 1 # 500)%Q.
Proof.
  split; [|reflexivity].
  refine (proj2 (determine_quantity_percentage E_ok h0 cfg_pct alert_c1 "BTC/USDT" st0
            10%Q (<["USDT" := 1000%Q]> ∅) "USDT" _ _ _ _) 1000%Q 50000%Q _ _).
  - reflexivity.
  - vm_compute. reflexivity.
  - reflexivity.
  - reflexivity.
  - vm_compute. reflexivity.
  - right. split; reflexivity.
Defined.

(** C5: an alert price of 0 is passed over for the stored price. *)
Lemma zero_alert_price_skipped :
  snd (dispatch_order E_ok h0 cfg_limit (priced 0 alert_c1) "BTC/USDT" "limit" "buy" (1 # 100)%Q st0) =
    log_call (CCreateOrder 0 {| rq_symbol := "BTC/USDT"; rq_type := "limit"; rq_side := "buy";
                                rq_amount := (1 # 100)%Q; rq_price := Some 100%Q;
                                rq_params := None |}) st0.
Proof. vm_compute. reflexivity. Qed.

Lemma dispatch_order_price_witness :
  exists rq, snd (dispatch_order E_ok h0 cfg_limit alert_c1 "BTC/USDT" "limit" "buy" (1 # 100)%Q st0) =
               log_call (CCreateOrder (h_id h0) rq) st0 /\ rq_price rq = Some 100%Q.
Proof.
  apply (proj2 (proj1 (dispatch_order_price E_ok h0 cfg_limit alert_c1 "BTC/USDT" "buy" (1 # 100)%Q st0)
                 "limit" (or_introl eq_refl)) 100%Q).
  right. split; [reflexivity|vm_compute; reflexivity].
Defined.

Lemma resolve_fixed_quantity_witness :
  cfg_quantity cfg_c1 = Some (1 # 100)%Q /\ (0 < 1 # 100)%Q /\
  resolve_quantity E_ok h0 cfg_c1 alert_c1 "BTC/USDT" st0 = (inr (1 # 100)%Q, st0).
Proof.
  split; [reflexivity|]. split; [reflexivity|].
  apply resolve_fixed_quantity; reflexivity.
Defined.

(** C7: a negative fixed quantity passes the guard. *)
Lemma negative_quantity_passes :
  resolve_quantity E_ok h0 cfg_neg alert_c1 "BTC/USDT" st0 = (inr (-1)%Q, st0).
Proof. vm_compute. reflexivity. Qed.

(** A negative percentage gives a negative quantity, which passes the
    guard; with neither a quantity nor a percentage the guard raises. *)
Lemma resolve_quantity_guard_witness :
  fst (resolve_quantity E_ok h0 cfg_negpct alert_c1 "BTC/USDT" st0) =
    inr ((1000 * (-10) / 100) / 50000)%Q /\
  ((1000 * (-10) / 100) / 50000 == -(1 # 500))%Q /\
  fst (resolve_quantity E_ok h0 cfg_none alert_c1 "BTC/USDT" st0) =
    inl (HTTPException 400 "Could not determine order quantity").
Proof.
  split; [|split; [reflexivity|]].
  - apply (proj2 (proj2 (proj2 (resolve_quantity_guard E_ok h0 cfg_negpct alert_c1 "BTC/USDT" st0)))
             (-10)%Q (<["USDT" := 1000%Q]> ∅) "USDT" 1000%Q 50000%Q).
    + reflexivity.
    + reflexivity.
    + vm_compute. reflexivity.
    + reflexivity.
    + vm_compute. reflexivity.
    + right. split; reflexivity.
    + vm_compute. discriminate.
    + vm_compute. discriminate.
  - apply (proj2 (proj1 (proj2 (resolve_quantity_guard E_ok h0 cfg_none alert_c1 "BTC/USDT" st0)))).
    split; [reflexivity|left; reflexivity].
Defined.

(** C8: with a clock that returns the same timestamp twice, two identical
    alerts place two orders but leave one history record. *)
Lemma same_timestamp_overwrites :
  let E := world (configs_of "c1" cfg_c1) vault_u1 accepting stamp in
  let s2 := snd (process_tradingview_alert E alert_c1
                   (snd (process_tradingview_alert E alert_c1 st0))) in
  st_log s2 = [CVaultGet "u1" "binance"; CConstruct "binance";
               CCreateOrder 1 rq_c1; CCreateOrder 1 rq_c1] /\
  size (st_history s2) = 1.
Proof. vm_compute. split; reflexivity. Qed.

Lemma repeated_alert_witness :
  exists rc1 rc2,
    st_history (snd run1) = <[alert_key "u1" "0" := rc1]> (st_history st0) /\
    st_history (snd run2) = <[alert_key "u1" "1" := rc2]> (st_history (snd run1)) /\
    ("0" <> "1" ->
       st_history (snd run2) !! alert_key "u1" "0" = Some rc1 /\
       st_history (snd run2) !! alert_key "u1" "1" = Some rc2) /\
    ("0" = "1" -> st_history (snd run2) = <[alert_key "u1" "0" := rc2]> (st_history st0)).
Proof.
  refine (proj2 (repeated_alert E_ok alert_c1 st0 (fst run1) (snd run1) (fst run2) (snd run2) _ _)
            {| or_success := true; or_order_id := Some "ord2";
               or_message := Some "Order executed successfully";
               or_details := Some {| rc_id := Some "ord2"; rc_raw := "" |};
               or_timestamp := "0" |}
            {| or_success := true; or_order_id := Some "ord3";
               or_message := Some "Order executed successfully";
               or_details := Some {| rc_id := Some "ord3"; rc_raw := "" |};
               or_timestamp := "1" |} _ _).
  - unfold run1. destruct (process_tradingview_alert E_ok alert_c1 st0); reflexivity.
  - unfold run2. destruct (process_tradingview_alert E_ok alert_c1 (snd run1)); reflexivity.
  - vm_compute. reflexivity.
  - vm_compute. reflexivity.
Defined.

Lemma get_exchange_client_cache_witness :
  let s := set_cache (<[client_key "u1" "binance" := h0]> ∅) st0 in
  st_cache s !! client_key "u1" "binance" = Some h0 /\
  get_exchange_client E_ok "u1" "binance" s = (inr h0, s).
Proof.
  cbv zeta. split; [vm_compute; reflexivity|].
  apply (proj1 (get_exchange_client_cache E_ok "u1" "binance" _)).
  vm_compute. reflexivity.
Defined.

(** C10: a limit order placed at the stored price 100 is recorded with the
    alert's absent price. *)
Lemma success_record_price_witness :
  let E := world (configs_of "c1" cfg_limit) vault_u1 accepting ticking in
  exists rc, st_history (snd (process_tradingview_alert E alert_c1 st0)) !! alert_key "u1" "0" = Some rc /\
             hr_success rc = true /\ hr_price rc = None.
Proof.
  cbv zeta.
  apply (success_record_price (world (configs_of "c1" cfg_limit) vault_u1 accepting ticking)
           alert_c1 st0
           {| or_success := true; or_order_id := Some "ord2";
              or_message := Some "Order executed successfully";
              or_details := Some {| rc_id := Some "ord2"; rc_raw := "" |};
              or_timestamp := "0" |}); [|reflexivity].
  vm_compute. reflexivity.
Defined.

(** * Properties of the Redis helpers *)

Module DatabaseFacts.
Import Database.

(** ** Strings *)

Lemma str_app_assoc (a b c : string) : (a +:+ b) +:+ c = a +:+ (b +:+ c).
Proof.
  induction a as [|x a IH]; [reflexivity|].
  change (String x ((a +:+ b) +:+ c) = String x (a +:+ b +:+ c)). now rewrite IH.
Qed.

Lemma startswith_app (p t : string) : startswith p (p +:+ t) = true.
Proof.
  induction p as [|c p IH]; [reflexivity|].
  change ((Ascii.eqb c c && startswith p (p +:+ t))%bool = true).
  now rewrite Ascii.eqb_refl, IH.
Qed.

Lemma startswith_inv (p s : string) : startswith p s = true -> exists t, s = p +:+ t.
Proof.
  revert s; induction p as [|c p IH]; intros [|d s]; cbn; try discriminate.
  - intros _. now exists EmptyString.
  - intros _. now exists (String d s).
  - intros H. apply andb_prop in H as [Hc H].
    apply Ascii.eqb_eq in Hc; subst d.
    destruct (IH s H) as [t ->]. now exists t.
Qed.

Lemma has_char_app_sep (c : ascii) (x y : string) : has_char c (x +:+ String c y) = true.
Proof.
  induction x as [|a x IH].
  - change ((Ascii.eqb c c || has_char c y)%bool = true). now rewrite Ascii.eqb_refl.
  - change ((Ascii.eqb a c || has_char c (x +:+ String c y))%bool = true).
    now rewrite IH, orb_true_r.
Qed.

(** [String.leb] is transitive; with [leb_total] this makes [key_ge] a
    total preorder. *)
Lemma string_leb_trans (x y z : string) :
  String.leb x y = true -> String.leb y z = true -> String.leb x z = true.
Proof.
  revert y z; induction x as [|a x IH]; intros [|b y] [|c z];
    unfold String.leb; cbn; try easy.
  unfold Ascii.compare.
  destruct (N.compare_spec (N_of_ascii a) (N_of_ascii b)) as [Hab|Hab|Hab];
  destruct (N.compare_spec (N_of_ascii b) (N_of_ascii c)) as [Hbc|Hbc|Hbc];
    try easy; intros H1 H2.
  - rewrite Hab, Hbc, N.compare_refl. exact (IH y z H1 H2).
  - destruct (N.compare_spec (N_of_ascii a) (N_of_ascii c)); try easy; lia.
  - destruct (N.compare_spec (N_of_ascii a) (N_of_ascii c)); try easy; lia.
  - destruct (N.compare_spec (N_of_ascii a) (N_of_ascii c)); try easy; lia.
Qed.

#[local] Instance key_ge_trans : Transitive key_ge.
Proof. intros x y z H1 H2. unfold key_ge in *. exact (string_leb_trans z y x H2 H1). Qed.

#[local] Instance key_ge_total : Total key_ge.
Proof. intros x y. unfold key_ge. destruct (String.leb_total x y); auto. Qed.

(** ** Key namespaces *)

(** Splitting at the first [:] of two strings whose heads have none. *)
Lemma colon_prefix_inj (x y s t : string) :
  has_char ":" x = false -> has_char ":" y = false ->
  x +:+ String ":" s = y +:+ String ":" t -> x = y /\ s = t.
Proof.
  revert y. induction x as [|a x IH]; intros [|b y] Hx Hy H.
  - injection H. auto.
  - change (String ":" s = String b (y +:+ String ":" t)) in H.
    injection H as <- _. discriminate Hy.
  - change (String a (x +:+ String ":" s) = String ":" t) in H.
    injection H as -> _. discriminate Hx.
  - change (String a (x +:+ String ":" s) = String b (y +:+ String ":" t)) in H.
    injection H as <- H.
    change (Ascii.eqb a ":" || has_char ":" x = false) in Hx.
    change (Ascii.eqb a ":" || has_char ":" y = false) in Hy.
    apply orb_false_iff in Hx as [_ Hx]. apply orb_false_iff in Hy as [_ Hy].
    destruct (IH y Hx Hy H) as [-> ->]. auto.
Qed.

(** With user ids free of [:], no credential key is a configuration key. *)
Lemma exchange_config_key_disjoint (u u' e n : string) :
  has_char ":" u = false -> has_char ":" u' = false ->
  exchange_key u' e <> config_key u n.
Proof.
  unfold exchange_key, config_key. intros Hu Hu' H. apply app_inj_prefix in H.
  change (u' +:+ String ":" ("exchange:" +:+ e) = u +:+ String ":" ("alert_config:" +:+ n)) in H.
  destruct (colon_prefix_inj u' u _ _ Hu' Hu H) as [_ H']. discriminate H'.
Qed.

Lemma in_redis_keys_prefix (p k : string) (r : redis) :
  In k (redis_keys_prefix p r) <-> startswith p k = true /\ is_Some (r_store r !! k).
Proof.
  unfold redis_keys_prefix. rewrite filter_In, in_map_iff. split.
  - intros [([k' v] & Hk & Hin) Hp]. cbn in Hk; subst k'. split; [exact Hp|].
    exists v. apply elem_of_map_to_list, list_elem_of_In, Hin.
  - intros [Hp [v Hv]]. split; [|exact Hp].
    exists (k, v). split; [reflexivity|]. apply list_elem_of_In, elem_of_map_to_list, Hv.
Qed.

(** ** API keys *)

(** Saving credentials and reading them back gives them unchanged, when
    decryption inverts encryption. *)
Theorem exchange_api_key_roundtrip
    (encrypt : nat -> string -> string) (decrypt : string -> option string)
    (Hround : forall n x, decrypt (encrypt n x) = Some x)
    (u e key secret : string) (r : redis) :
  get_exchange_api_key decrypt u e (snd (save_exchange_api_key encrypt u e key secret r))
  = inr (Some {| api_key := key; api_secret := secret |}).
Proof.
  unfold save_exchange_api_key, encrypt_data, redis_set, get_exchange_api_key; cbn.
  rewrite lookup_insert_eq. cbn. rewrite !Hround. reflexivity.
Qed.

(** Deleting credentials reports whether an entry existed; afterwards the
    lookup finds none ([{}]). *)
Theorem delete_exchange_api_key_spec
    (decrypt : string -> option string) (u e : string) (r : redis) :
  fst (delete_exchange_api_key u e r)
    = match r_store r !! exchange_key u e with Some _ => true | None => false end /\
  get_exchange_api_key decrypt u e (snd (delete_exchange_api_key u e r)) = inr None.
Proof.
  unfold delete_exchange_api_key, redis_delete, get_exchange_api_key; cbn.
  rewrite lookup_delete_eq. split; [|reflexivity].
  destruct (r_store r !! exchange_key u e); reflexivity.
Qed.

(** For user ids free of [:], writing or deleting an alert configuration
    of any user never changes what any user's credential lookup returns,
    and writing or deleting credentials never changes what any user's
    configuration lookup returns. *)
Theorem user_namespaces_separate
    (encrypt : nat -> string -> string) (decrypt : string -> option string)
    (u u' e n key secret : string) (d : json) (r : redis)
    (Hu : has_char ":" u = false) (Hu' : has_char ":" u' = false) :
  get_exchange_api_key decrypt u' e (snd (save_alert_config u n d r))
    = get_exchange_api_key decrypt u' e r /\
  get_exchange_api_key decrypt u' e (snd (delete_alert_config u n r))
    = get_exchange_api_key decrypt u' e r /\
  get_alert_config u' n (snd (save_exchange_api_key encrypt u e key secret r))
    = get_alert_config u' n r /\
  get_alert_config u' n (snd (delete_exchange_api_key u e r))
    = get_alert_config u' n r.
Proof.
  assert (Hne : config_key u n <> exchange_key u' e).
  { intros H. exact (exchange_config_key_disjoint u u' e n Hu Hu' (eq_sym H)). }
  assert (Hne' : exchange_key u e <> config_key u' n)
    by exact (exchange_config_key_disjoint u' u e n Hu' Hu).
  unfold save_alert_config, delete_alert_config, save_exchange_api_key,
    delete_exchange_api_key, encrypt_data, redis_set, redis_delete,
    get_exchange_api_key, get_alert_config; cbn.
  rewrite (lookup_insert_ne _ _ _ _ Hne), (lookup_delete_ne _ _ _ Hne),
    (lookup_insert_ne _ _ _ _ Hne'), (lookup_delete_ne _ _ _ Hne').
  repeat split.
Qed.

(** ** Listing configurations *)

Lemma split_on_nonempty (c : ascii) (s : string) : split_on c s <> [].
Proof.
  destruct s as [|x s]; simpl; [discriminate|].
  destruct (Ascii.eqb x c); [discriminate|].
  destruct (split_on c s); discriminate.
Qed.

Lemma split_on_app_sep (c : ascii) (x s : string) :
  split_on c (x +:+ String c s) = (split_on c x ++ split_on c s)%list.
Proof.
  induction x as [|a x IH].
  - change (split_on c (String c s) = "" :: split_on c s). cbn. now rewrite Ascii.eqb_refl.
  - change (split_on c (String a (x +:+ String c s)) = (split_on c (String a x) ++ split_on c s)%list).
    cbn. destruct (Ascii.eqb a c); [now rewrite IH|].
    rewrite IH. pose proof (split_on_nonempty c x) as Hne.
    destruct (split_on c x); [contradiction|reflexivity].
Qed.

Lemma split_on_no_char (c : ascii) (m : string) : has_char c m = false -> split_on c m = [m].
Proof.
  induction m as [|a m IH]; cbn; [reflexivity|].
  intros H. apply orb_false_iff in H as [Ha Hm]. rewrite Ha, (IH Hm). reflexivity.
Qed.

Lemma split_on_pieces (c : ascii) (s w : string) : In w (split_on c s) -> has_char c w = false.
Proof.
  revert w; induction s as [|a s IH]; cbn; intros w.
  - intros [<-|[]]. reflexivity.
  - destruct (Ascii.eqb a c) eqn:Ha.
    + intros [<-|Hw]; [reflexivity|exact (IH w Hw)].
    + destruct (split_on c s) as [|w0 ws] eqn:Hs; [contradiction (split_on_nonempty c s)|].
      intros [<-|Hw].
      * cbn. rewrite Ha. apply IH. rewrite ?Hs. left; reflexivity.
      * apply IH. rewrite ?Hs. right; exact Hw.
Qed.

(** The configuration name read back from a key: [key.split(":")[-1]]. *)
Lemma config_name_of_key (u m : string) :
  has_char ":" m = false -> last (split_on ":" (config_key u m)) = Some m.
Proof.
  intros Hm.
  assert (Hk : config_key u m = ("user:" +:+ u +:+ ":alert_config") +:+ String ":" m).
  { unfold config_key. rewrite !str_app_assoc. reflexivity. }
  rewrite Hk, split_on_app_sep, (split_on_no_char _ _ Hm). apply last_snoc.
Qed.

Lemma config_name_no_colon (key : string) :
  has_char ":" (match last (split_on ":" key) with Some n => n | None => "" end) = false.
Proof.
  destruct (last (split_on ":" key)) as [n|] eqn:Hl; [|reflexivity].
  apply (split_on_pieces ":" key), list_elem_of_In, last_Some_elem_of, Hl.
Qed.

Lemma config_key_listed (u m : string) (r : redis) v :
  r_store r !! config_key u m = Some v ->
  In (config_key u m) (redis_keys_prefix ("user:" +:+ u +:+ ":alert_config:") r).
Proof.
  intros Hv. apply in_redis_keys_prefix. split; [|eexists; exact Hv].
  assert (Hk : config_key u m = ("user:" +:+ u +:+ ":alert_config:") +:+ m).
  { unfold config_key. rewrite !str_app_assoc. reflexivity. }
  rewrite Hk. apply startswith_app.
Qed.

Lemma collect_configs_sound (u : string) (keys : list string) (r : redis) cs :
  collect_configs u keys r = inr cs ->
  forall j, In j cs ->
  exists m d, has_char ":" m = false /\ r_store r !! config_key u m = Some (JObj d) /\
              d <> [] /\ j = JObj (dict_set d "name" (JStr m)).
Proof.
  revert cs; induction keys as [|key keys IH]; cbn; intros cs Hc j Hj.
  - injection Hc as <-. destruct Hj.
  - set (m := match last (split_on ":" key) with Some n => n | None => "" end) in *.
    unfold get_alert_config in Hc.
    destruct (r_store r !! config_key u m) as [v|] eqn:Hv; cbn in Hc.
    + destruct (json_truthy v) eqn:Ht.
      * destruct v; cbn in Hc; try discriminate.
        destruct (collect_configs u keys r) as [e|cs'] eqn:Hr; [discriminate|].
        injection Hc as <-. destruct Hj as [<-|Hj].
        -- exists m, fields. split; [apply config_name_no_colon|].
           split; [exact Hv|]. split; [|reflexivity].
           destruct fields; [discriminate|congruence].
        -- exact (IH cs' eq_refl j Hj).
      * exact (IH cs Hc j Hj).
    + exact (IH cs Hc j Hj).
Qed.

Lemma collect_configs_complete (u : string) (keys : list string) (r : redis) :
  (forall m v, r_store r !! config_key u m = Some v -> json_truthy v = true ->
               exists d, v = JObj d) ->
  exists cs, collect_configs u keys r = inr cs /\
    forall m d, In (config_key u m) keys -> has_char ":" m = false ->
                r_store r !! config_key u m = Some (JObj d) -> d <> [] ->
                In (JObj (dict_set d "name" (JStr m))) cs.
Proof.
  intros Hdicts. induction keys as [|key keys IH]; cbn.
  - exists []. split; [reflexivity|]. intros m d [].
  - destruct IH as [cs [Hcs Hin]].
    set (m0 := match last (split_on ":" key) with Some n => n | None => "" end).
    unfold get_alert_config.
    destruct (r_store r !! config_key u m0) as [v|] eqn:Hv.
    2: { exists cs. rewrite Hcs. split; [reflexivity|].
         intros m d [Hk|Hk] Hm Hd Hne; [|exact (Hin m d Hk Hm Hd Hne)].
         subst key. unfold m0 in Hv. rewrite (config_name_of_key u m Hm) in Hv. congruence. }
    destruct (json_truthy v) eqn:Ht.
    + destruct (Hdicts m0 v Hv Ht) as [d0 ->]. cbn. rewrite Hcs.
      exists (JObj (dict_set d0 "name" (JStr m0)) :: cs). split; [reflexivity|].
      intros m d [Hk|Hk] Hm Hd Hne; [|right; exact (Hin m d Hk Hm Hd Hne)].
      subst key. unfold m0 in *. rewrite (config_name_of_key u m Hm) in *.
      left. congruence.
    + exists cs. rewrite Hcs. split; [reflexivity|].
      intros m d [Hk|Hk] Hm Hd Hne; [|exact (Hin m d Hk Hm Hd Hne)].
      subst key. unfold m0 in *. rewrite (config_name_of_key u m Hm) in *.
      rewrite Hd in Hv. injection Hv as <-. destruct d; [contradiction|discriminate].
Qed.

(** For a user id with no glob syntax (so that KEYS matches by prefix):
    when every non-empty configuration of the user is a dict, the listing
    succeeds and shows each non-empty configuration whose name has no [:],
    with its ["name"] entry set to that name. *)
Theorem get_all_alert_configs_complete (u : string) (r : redis)
    (Hglob : glob_free u = true)
    (Hdicts : forall m v, r_store r !! config_key u m = Some v -> json_truthy v = true ->
                         exists d, v = JObj d) :
  exists cs, get_all_alert_configs u r = inr cs /\
    forall m d, has_char ":" m = false ->
                r_store r !! config_key u m = Some (JObj d) -> d <> [] ->
                In (JObj (dict_set d "name" (JStr m))) cs.
Proof.
  destruct (collect_configs_complete u
              (redis_keys_prefix ("user:" +:+ u +:+ ":alert_config:") r) r Hdicts)
    as [cs [Hcs Hin]].
  exists cs. split; [exact Hcs|].
  intros m d Hm Hd Hne. exact (Hin m d (config_key_listed u m r _ Hd) Hm Hd Hne).
Qed.

(** Every listed configuration is the non-empty dict stored under
    [config_key u m] for a name [m] with no [:], with its ["name"] entry
    set to [m]: a configuration saved under a name containing [:] is never
    listed as itself. *)
Theorem get_all_alert_configs_sound (u : string) (r : redis) cs
    (Hok : get_all_alert_configs u r = inr cs) :
  forall j, In j cs ->
  exists m d, has_char ":" m = false /\ r_store r !! config_key u m = Some (JObj d) /\
              d <> [] /\ j = JObj (dict_set d "name" (JStr m)).
Proof. exact (collect_configs_sound u _ r cs Hok). Qed.

Lemma collect_configs_app (u : string) (ks1 ks2 : list string) (r : redis) cs1 cs2 :
  collect_configs u ks1 r = inr cs1 -> collect_configs u ks2 r = inr cs2 ->
  collect_configs u (ks1 ++ ks2) r = inr (cs1 ++ cs2)%list.
Proof.
  revert cs1; induction ks1 as [|k ks1 IH]; intros cs1 H1 H2.
  - cbn in H1. injection H1 as <-. exact H2.
  - cbn in H1 |- *.
    destruct (json_truthy _); [|exact (IH cs1 H1 H2)].
    destruct (json_setitem _ _ _); [discriminate|].
    destruct (collect_configs u ks1 r) as [e|cs'] eqn:Hc; [discriminate|].
    injection H1 as <-. rewrite (IH cs' eq_refl H2). reflexivity.
Qed.

Lemma collect_configs_one (u key m : string) (r : redis) d :
  last (split_on ":" key) = Some m ->
  r_store r !! config_key u m = Some (JObj d) -> d <> [] ->
  collect_configs u [key] r = inr [JObj (dict_set d "name" (JStr m))].
Proof.
  intros Hl Hd Hne. cbn. rewrite Hl. unfold get_alert_config. rewrite Hd.
  destruct d; [contradiction|reflexivity].
Qed.

Lemma two_members {A} (x y : A) (l : list A) :
  In x l -> In y l -> x <> y ->
  exists p q t a b, l = (p ++ a :: q ++ b :: t)%list /\ (a = x \/ a = y) /\ (b = x \/ b = y).
Proof.
  intros Hx Hy Hne. destruct (in_split x l Hx) as [p [rest ->]].
  apply in_app_or in Hy as [Hy|[Hy|Hy]]; [| congruence |].
  - destruct (in_split y p Hy) as [p1 [p2 ->]].
    exists p1, p2, rest, y, x. rewrite <- app_assoc. auto.
  - destruct (in_split y rest Hy) as [q [t ->]]. exists p, q, t, x, y. auto.
Qed.

(** For a user id with no glob syntax whose non-empty configurations are
    all dicts: a non-empty configuration [m] (name with no [:]) is listed
    twice as soon as the user also has a configuration named [x:m]: the
    latter's key also ends in [:m], so the loop reads [m]'s dict for it. *)
Theorem get_all_alert_configs_duplicate (u m x : string) (r : redis) d v
    (Hglob : glob_free u = true)
    (Hdicts : forall n w, r_store r !! config_key u n = Some w -> json_truthy w = true ->
                         exists d', w = JObj d')
    (Hm : has_char ":" m = false)
    (Hd : r_store r !! config_key u m = Some (JObj d)) (Hne : d <> [])
    (Hx : r_store r !! config_key u (x +:+ ":" +:+ m) = Some v) :
  exists cs1 cs2 cs3,
    get_all_alert_configs u r
    = inr (cs1 ++ JObj (dict_set d "name" (JStr m)) :: cs2 ++
           JObj (dict_set d "name" (JStr m)) :: cs3)%list.
Proof.
  set (keys := redis_keys_prefix ("user:" +:+ u +:+ ":alert_config:") r).
  assert (H1 : In (config_key u m) keys) by exact (config_key_listed u m r _ Hd).
  assert (H2 : In (config_key u (x +:+ ":" +:+ m)) keys) by exact (config_key_listed u _ r _ Hx).
  assert (Hseg2 : last (split_on ":" (config_key u (x +:+ ":" +:+ m))) = Some m).
  { assert (Hk : config_key u (x +:+ ":" +:+ m)
                 = ("user:" +:+ u +:+ ":alert_config:" +:+ x) +:+ String ":" m).
    { unfold config_key. rewrite !str_app_assoc. reflexivity. }
    rewrite Hk, split_on_app_sep, (split_on_no_char _ _ Hm). apply last_snoc. }
  assert (Hdiff : config_key u m <> config_key u (x +:+ ":" +:+ m)).
  { unfold config_key. intros H. apply app_inj_prefix, app_inj_prefix, app_inj_prefix in H.
    rewrite H in Hm. change (has_char ":" (x +:+ String ":" m) = false) in Hm.
    rewrite has_char_app_sep in Hm. discriminate. }
  destruct (two_members _ _ keys H1 H2 Hdiff) as (p & q & t & a & b & Hkeys & Ha & Hb).
  assert (Hseg : forall k, k = config_key u m \/ k = config_key u (x +:+ ":" +:+ m) ->
                           last (split_on ":" k) = Some m).
  { intros k [->| ->]; [exact (config_name_of_key u m Hm) | exact Hseg2]. }
  destruct (collect_configs_complete u p r Hdicts) as [cp [Hp _]].
  destruct (collect_configs_complete u q r Hdicts) as [cq [Hq _]].
  destruct (collect_configs_complete u t r Hdicts) as [ct [Ht _]].
  exists cp, cq, ct. unfold get_all_alert_configs. fold keys. rewrite Hkeys.
  change (a :: q ++ b :: t)%list with ([a] ++ (q ++ ([b] ++ t)))%list.
  apply collect_configs_app; [exact Hp|].
  change (JObj (dict_set d "name" (JStr m)) :: cq ++ JObj (dict_set d "name" (JStr m)) :: ct)%list
    with ([JObj (dict_set d "name" (JStr m))] ++ (cq ++ ([JObj (dict_set d "name" (JStr m))] ++ ct)))%list.
  apply collect_configs_app; [apply collect_configs_one; auto|].
  apply collect_configs_app; [exact Hq|].
  apply collect_configs_app; [apply collect_configs_one; auto|exact Ht].
Qed.

(** ** Alert history *)

Lemma read_records_present (ks : list string) (r : redis) :
  (forall k, In k ks -> is_Some (r_store r !! k)) ->
  Forall2 (fun k v => r_store r !! k = Some v) ks (read_records ks r).
Proof.
  induction ks as [|k ks IH]; cbn; intros Hks; [constructor|].
  destruct (Hks k (or_introl eq_refl)) as [v Hv]. rewrite Hv.
  constructor; [exact Hv|]. apply IH. intros k' Hk'. apply Hks. right; exact Hk'.
Qed.

Lemma py_slice_upto_take {A} (xs : list A) (n : Z) :
  exists k, py_slice_upto xs n = take k xs /\ ((0 <= n)%Z -> k = Z.to_nat n).
Proof.
  unfold py_slice_upto. destruct (0 <=? n)%Z eqn:Hn.
  - exists (Z.to_nat n). split; [reflexivity|]. intros _. reflexivity.
  - exists (length xs - Z.to_nat (- n)). split; [reflexivity|]. intros H. lia.
Qed.

Lemma Forall2_in_l {A B} (P : A -> B -> Prop) xs ys x :
  Forall2 P xs ys -> In x xs -> exists y, In y ys /\ P x y.
Proof.
  induction 1 as [|x' y' xs' ys' Hp _ IH]; [intros []|].
  intros [<-|Hx]; [exists y'; split; [left|]; auto|].
  destruct (IH Hx) as [y [Hy Hq]]. exists y. split; [right|]; auto.
Qed.

(** The keys a history read looks at, before [keys[:limit]]. *)
Lemma history_keys (u : string) (limit : Z) (r : redis) :
  let l := merge_sort key_ge (redis_keys_prefix ("alert:" +:+ u +:+ ":") r) in
  exists n, get_alert_history u limit r = read_records (take n l) r /\
            ((0 <= limit)%Z -> n = Z.to_nat limit).
Proof.
  cbv zeta. unfold get_alert_history.
  destruct (py_slice_upto_take (merge_sort key_ge (redis_keys_prefix ("alert:" +:+ u +:+ ":") r)) limit)
    as [n [Hn Hl]].
  exists n. rewrite Hn. split; [reflexivity|exact Hl].
Qed.

Lemma in_sorted_keys (p k : string) (r : redis) :
  In k (merge_sort key_ge (redis_keys_prefix p r)) <->
  startswith p k = true /\ is_Some (r_store r !! k).
Proof.
  rewrite <- in_redis_keys_prefix, <- !list_elem_of_In.
  split; intros H; [rewrite <- (merge_sort_Permutation key_ge) | rewrite (merge_sort_Permutation key_ge)]; exact H.
Qed.

(** For a user id with no glob syntax and a non-negative limit, the history
    holds [min(limit, n)] records, where [n] is the number of keys starting
    with ["alert:<u>:"]. *)
Theorem get_alert_history_length (u : string) (limit : Z) (r : redis)
    (Hglob : glob_free u = true)
    (Hlim : (0 <= limit)%Z) :
  length (get_alert_history u limit r)
  = Nat.min (Z.to_nat limit) (length (redis_keys_prefix ("alert:" +:+ u +:+ ":") r)).
Proof.
  destruct (history_keys u limit r) as [n [Hh Hn]]. rewrite Hh, (Hn Hlim).
  set (l := merge_sort key_ge (redis_keys_prefix ("alert:" +:+ u +:+ ":") r)).
  assert (Hf : Forall2 (fun k v => r_store r !! k = Some v) (take (Z.to_nat limit) l)
                       (read_records (take (Z.to_nat limit) l) r)).
  { apply read_records_present. intros k Hk.
    apply list_elem_of_In, elem_of_take in Hk as [i [Hi _]].
    apply list_elem_of_lookup_2, list_elem_of_In, in_sorted_keys in Hi. apply Hi. }
  rewrite <- (Forall2_length _ _ _ Hf), length_take.
  unfold l. rewrite (Permutation_length (merge_sort_Permutation key_ge _)). reflexivity.
Qed.

(** For a user id with no glob syntax, every limit (also a negative one,
    which Python's slice counts from the end) returns the records stored under some keys [ks], one per key and in
    that order, where [ks] starts with ["alert:<u>:"], is in descending
    order, and is at least as large as every such key it leaves out. *)
Theorem get_alert_history_latest (u : string) (limit : Z) (r : redis)
    (Hglob : glob_free u = true) :
  let p := "alert:" +:+ u +:+ ":" in
  exists ks,
    Forall2 (fun k v => r_store r !! k = Some v) ks (get_alert_history u limit r) /\
    Sorted key_ge ks /\
    (forall k, In k ks -> startswith p k = true) /\
    (forall k k', In k ks -> startswith p k' = true -> is_Some (r_store r !! k') ->
                  ~ In k' ks -> key_ge k k').
Proof.
  cbv zeta. destruct (history_keys u limit r) as [n [Hh _]]. rewrite Hh.
  set (p := "alert:" +:+ u +:+ ":").
  set (l := merge_sort key_ge (redis_keys_prefix p r)).
  assert (Hl : forall k, In k l <-> startswith p k = true /\ is_Some (r_store r !! k))
    by (intros k; apply in_sorted_keys).
  assert (Htake : forall k, In k (take n l) -> In k l).
  { intros k Hk. apply list_elem_of_In. apply list_elem_of_In in Hk.
    rewrite <- (take_drop n l). apply elem_of_app. left; exact Hk. }
  exists (take n l). split; [|split; [|split]].
  - apply read_records_present. intros k Hk. apply Hl, Htake, Hk.
  - apply StronglySorted_Sorted.
    apply (StronglySorted_app_1_l key_ge _ (drop n l)). rewrite take_drop.
    apply StronglySorted_merge_sort; typeclasses eauto.
  - intros k Hk. apply Hl, Htake, Hk.
  - intros k k' Hk Hp Hs Hnot.
    assert (Hk' : In k' l) by (apply Hl; auto).
    assert (Hd : k' ∈ drop n l).
    { apply list_elem_of_In in Hk'. rewrite <- (take_drop n l) in Hk'.
      apply elem_of_app in Hk' as [Hin|Hin]; [|exact Hin].
      exfalso. apply Hnot, list_elem_of_In, Hin. }
    apply (StronglySorted_app_1_elem_of key_ge (take n l) (drop n l)); [| |exact Hd].
    + rewrite take_drop. apply StronglySorted_merge_sort; typeclasses eauto.
    + apply list_elem_of_In, Hk.
Qed.

(** For a user id [u] with no glob syntax, the history of [u] also returns
    records written for any user whose id is [u], a [:], and more, once the
    limit covers all keys starting with ["alert:<u>:"]. *)
Theorem get_alert_history_prefix_users (u x t : string) (limit : Z) (r : redis) v
    (Hglob : glob_free u = true)
    (Hlim : (0 <= limit)%Z)
    (Hcover : length (redis_keys_prefix ("alert:" +:+ u +:+ ":") r) <= Z.to_nat limit)
    (Hv : r_store r !! alert_key (u +:+ ":" +:+ x) t = Some v) :
  In v (get_alert_history u limit r).
Proof.
  destruct (history_keys u limit r) as [n [Hh Hn]]. rewrite Hh, (Hn Hlim).
  set (l := merge_sort key_ge (redis_keys_prefix ("alert:" +:+ u +:+ ":") r)).
  assert (Hkey : alert_key (u +:+ ":" +:+ x) t = ("alert:" +:+ u +:+ ":") +:+ (x +:+ ":" +:+ t)).
  { unfold alert_key. rewrite !str_app_assoc. reflexivity. }
  assert (Hin : In (alert_key (u +:+ ":" +:+ x) t) l).
  { apply in_sorted_keys. split; [rewrite Hkey; apply startswith_app | eexists; exact Hv]. }
  assert (Hlen : length l <= Z.to_nat limit).
  { unfold l. rewrite (Permutation_length (merge_sort_Permutation key_ge _)). exact Hcover. }
  rewrite (take_ge l (Z.to_nat limit) Hlen).
  assert (Hf : Forall2 (fun k v => r_store r !! k = Some v) l (read_records l r)).
  { apply read_records_present. intros k Hk. apply in_sorted_keys in Hk. apply Hk. }
  destruct (Forall2_in_l _ _ _ _ Hf Hin) as [v' [Hv' Heq]].
  rewrite Hv in Heq. injection Heq as ->. exact Hv'.
Qed.

End DatabaseFacts.


(** * Properties of the REST endpoints *)

Module ApiFacts.
Import Database Api.

Lemma read_records_length (ks : list string) (r : redis) :
  length (read_records ks r) <= length ks.
Proof.
  induction ks as [|k ks IH]; cbn; [lia|].
  destruct (r_store r !! k); cbn; lia.
Qed.

Lemma get_alert_history_le (u : string) (limit : Z) (r : redis) :
  (0 <= limit)%Z -> length (get_alert_history u limit r) <= Z.to_nat limit.
Proof.
  intros Hl. destruct (DatabaseFacts.history_keys u limit r) as [n [Hh Hn]].
  rewrite Hh, (Hn Hl). etransitivity; [apply read_records_length|].
  rewrite length_take. lia.
Qed.

(** A configuration created through the API is returned by [get_config]
    as the dict of the model; once removed, [get_config] answers 404. *)
Theorem config_endpoints_roundtrip (m : alert_config_model) (r : redis) :
  let r1 := snd (create_alert_config m r) in
  fst (create_alert_config m r)
    = inr (JObj [("success", JBool true); ("message", JStr "Configuration saved successfully")]) /\
  get_config (acm_name m) r1 = inr (config_dict m) /\
  fst (remove_config (acm_name m) r1) = inr (JObj [("success", JBool true)]) /\
  get_config (acm_name m) (snd (remove_config (acm_name m) r1))
    = inl (HTTPException 404 ("Configuration " +:+ acm_name m +:+ " not found")).
Proof.
  cbv zeta.
  unfold create_alert_config, save_alert_config, redis_set, get_config, get_alert_config,
    remove_config, delete_alert_config, redis_delete; cbn.
  rewrite lookup_insert_eq, lookup_delete_eq. repeat split.
Qed.

(** After a configuration is created through the API under a name with no
    [:], [list_configs] shows it unchanged, provided every non-empty
    configuration already stored for ["default"] is a dict. *)
Theorem create_then_list_configs (m : alert_config_model) (r : redis)
    (Hname : has_char ":" (acm_name m) = false)
    (Hdicts : forall n v, r_store r !! config_key default_user n = Some v ->
                         json_truthy v = true -> exists d, v = JObj d) :
  exists cs, list_configs (snd (create_alert_config m r)) = inr (JList cs) /\
             In (config_dict m) cs.
Proof.
  set (r1 := snd (create_alert_config m r)).
  assert (Hm : r_store r1 !! config_key default_user (acm_name m) = Some (config_dict m)).
  { unfold r1, create_alert_config, save_alert_config, redis_set; cbn. apply lookup_insert_eq. }
  assert (Hdicts1 : forall n v, r_store r1 !! config_key default_user n = Some v ->
                               json_truthy v = true -> exists d, v = JObj d).
  { intros n v Hv Ht.
    unfold r1, create_alert_config, save_alert_config, redis_set in Hv; cbn in Hv.
    destruct (decide (config_key default_user (acm_name m) = config_key default_user n)) as [Heq|Hne].
    - rewrite Heq, lookup_insert_eq in Hv. injection Hv as <-. eexists; reflexivity.
    - rewrite lookup_insert_ne in Hv by exact Hne. exact (Hdicts n v Hv Ht). }
  destruct (DatabaseFacts.collect_configs_complete default_user
              (redis_keys_prefix ("user:" +:+ default_user +:+ ":alert_config:") r1) r1 Hdicts1)
    as [cs [Hcs Hin]].
  exists cs. unfold list_configs, get_all_alert_configs. rewrite Hcs. split; [reflexivity|].
  pose (d0 := match config_dict m with JObj d => d | _ => [] end).
  replace (config_dict m) with (JObj (dict_set d0 "name" (JStr (acm_name m)))) by reflexivity.
  apply (Hin (acm_name m) d0); [|exact Hname|exact Hm|unfold d0; cbn; discriminate].
  exact (DatabaseFacts.config_key_listed default_user (acm_name m) r1 _ Hm).
Qed.

(** The history endpoint rejects a limit outside [1, 100] with a
    validation error; otherwise, and with the default limit 20, it returns
    at most [limit] records. *)
Theorem history_endpoint_limit (limit : Z) (r : redis) :
  ((limit < 1)%Z \/ (100 < limit)%Z -> get_user_alert_history (Some limit) r = inl validation_error) /\
  ((1 <= limit <= 100)%Z ->
     exists xs, get_user_alert_history (Some limit) r = inr (JList xs) /\
                length xs <= Z.to_nat limit) /\
  (exists xs, get_user_alert_history None r = inr (JList xs) /\ length xs <= 20).
Proof.
  unfold get_user_alert_history. split; [|split].
  - intros H. replace ((1 <=? limit)%Z && (limit <=? 100)%Z) with false; [reflexivity|].
    symmetry. apply andb_false_iff. destruct H; [left|right]; apply Z.leb_gt; lia.
  - intros H. replace ((1 <=? limit)%Z && (limit <=? 100)%Z) with true
      by (symmetry; apply andb_true_iff; split; apply Z.leb_le; lia).
    eexists; split; [reflexivity|]. apply get_alert_history_le. lia.
  - cbn. eexists; split; [reflexivity|]. apply (get_alert_history_le default_user 20). lia.
Qed.

(** Adding API keys makes the status endpoint report [has_keys: true] for
    that exchange (when decryption inverts encryption); removing them makes
    it report [has_keys: false]. *)
Theorem api_key_status_endpoints
    (encrypt : nat -> string -> string) (decrypt : string -> option string)
    (Hround : forall n x, decrypt (encrypt n x) = Some x)
    (k : api_key_model) (e : string) (r : redis) :
  fst (add_api_key encrypt k r)
    = inr (JObj [("success", JBool true); ("message", JStr "API keys saved successfully")]) /\
  get_api_key_status decrypt (exchange_value (akm_exchange k)) (snd (add_api_key encrypt k r))
    = inr (JObj [("has_keys", JBool true)]) /\
  get_api_key_status decrypt e (snd (remove_api_key e r))
    = inr (JObj [("has_keys", JBool false)]).
Proof.
  unfold add_api_key, save_exchange_api_key, encrypt_data, redis_set, get_api_key_status,
    get_exchange_api_key, remove_api_key, delete_exchange_api_key, redis_delete; cbn.
  rewrite lookup_insert_eq, lookup_delete_eq. cbn. rewrite !Hround. repeat split.
Qed.

End ApiFacts.

(** * Properties of the frontend *)

Module FrontendFacts.
Import Database Api Frontend.

(** The configuration form is refused exactly when the name or the symbol is
    empty.  A posted dict has ["quantity_percentage"] only in percentage
    mode and ["quantity"] only outside it (so never both), each only when its
    value is non-zero, and ["price"] only for a non-market order with a
    non-zero price. *)
Theorem build_config_data_fields (f : form) :
  ((exists msg, build_config_data f = inl msg) <-> f_name f = "" \/ f_symbol f = "") /\
  forall d, build_config_data f = inr d ->
    dict_get d "quantity_percentage"
      = (if f_use_percentage f then option_map JNum (truthy (Some (f_quantity_percentage_input f)))
         else None) /\
    dict_get d "quantity"
      = (if f_use_percentage f then None
         else option_map JNum (truthy (Some (f_quantity_input f)))) /\
    dict_get d "price"
      = (if String.eqb (f_order_type f) "market" then None
         else option_map JNum (truthy (Some (f_price_input f)))).
Proof.
  unfold build_config_data. split.
  - destruct (String.eqb (f_name f) "") eqn:Hn; destruct (String.eqb (f_symbol f) "") eqn:Hs;
      cbn; apply String.eqb_eq in Hn || apply String.eqb_neq in Hn;
      apply String.eqb_eq in Hs || apply String.eqb_neq in Hs.
    all: split; [intros [msg Hm] | intros H].
    all: try (left; assumption); try (right; assumption); try (eexists; reflexivity).
    all: try (destruct H; contradiction).
    all: destruct (truthy _); discriminate.
  - intros d. cbv zeta. unfold truthy.
    destruct (String.eqb (f_name f) "" || String.eqb (f_symbol f) ""); [discriminate|].
    destruct (f_use_percentage f);
      destruct (Qeq_bool (f_quantity_percentage_input f) 0);
      destruct (Qeq_bool (f_quantity_input f) 0);
      destruct (String.eqb (f_order_type f) "market");
      cbn; destruct (Qeq_bool (f_price_input f) 0);
      intros H; inversion H; subst; cbn; repeat split.
Qed.

(** Deleting API keys from the frontend shows the success message exactly
    when the backend had stored keys for that exchange: [remove_api_key]
    answers [{"success": false}] otherwise. *)
Theorem delete_keys_feedback (dumps : json -> string) (e : string) (r : redis) :
  delete_feedback (fst (api_delete (inr (to_response dumps (fst (remove_api_key e r))))))
  = Some (match r_store r !! exchange_key default_user e with Some _ => true | None => false end).
Proof.
  unfold remove_api_key, delete_exchange_api_key, redis_delete; cbn.
  destruct (r_store r !! exchange_key default_user e); reflexivity.
Qed.

End FrontendFacts.

(** * Properties of the exchange calls of the handler *)

Module PipelineFacts.

Lemma order_calls_app (l1 l2 : list call) :
  order_calls (l1 ++ l2) = (order_calls l1 ++ order_calls l2)%list.
Proof. induction l1 as [|c l1 IH]; [reflexivity|]. destruct c; cbn; rewrite ?IH; reflexivity. Qed.

Section Orders.
Variable P : order_req -> Prop.

Lemma adds_ret {A} k (Q : A -> Prop) x : Q x -> adds_orders P k Q (ret x).
Proof.
  intros Hq s r s' H. inversion H; subst. split.
  - exists []. rewrite app_nil_r. split; [reflexivity|]. split; [cbn; lia|constructor].
  - intros y Hy. inversion Hy; subst. exact Hq.
Qed.

Lemma adds_raise {A} k (Q : A -> Prop) e : adds_orders P k Q (raise e).
Proof.
  intros s r s' H. inversion H; subst. split.
  - exists []. rewrite app_nil_r. split; [reflexivity|]. split; [cbn; lia|constructor].
  - discriminate.
Qed.

Lemma adds_bind {A B} k1 k2 (Q1 : A -> Prop) (Q2 : B -> Prop) (m : M A) (f : A -> M B) :
  adds_orders P k1 Q1 m -> (forall x, Q1 x -> adds_orders P k2 Q2 (f x)) ->
  adds_orders P (k1 + k2) Q2 (bind m f).
Proof.
  intros Hm Hf s r s' H. unfold bind in H.
  destruct (m s) as [[e|x] s1] eqn:E1.
  - inversion H; subst. destruct (Hm _ _ _ E1) as [[l [Hl [Hk Hp]]] _]. split.
    + exists l. split; [exact Hl|]. split; [lia|exact Hp].
    + discriminate.
  - destruct (Hm _ _ _ E1) as [[l1 [Hl1 [Hk1 Hp1]]] Hq1].
    destruct (Hf x (Hq1 x eq_refl) _ _ _ H) as [[l2 [Hl2 [Hk2 Hp2]]] Hq2].
    split; [|exact Hq2].
    exists (l1 ++ l2)%list. rewrite Hl2, Hl1, app_assoc. split; [reflexivity|].
    rewrite order_calls_app, length_app. split; [lia|]. apply Forall_app; auto.
Qed.

Lemma adds_try {A} k1 k2 (Q : A -> Prop) (m : M A) (h : exn -> M A) :
  adds_orders P k1 Q m -> (forall e, adds_orders P k2 Q (h e)) ->
  adds_orders P (k1 + k2) Q (try_catch m h).
Proof.
  intros Hm Hh s r s' H. unfold try_catch in H.
  destruct (m s) as [[e|x] s1] eqn:E1.
  - destruct (Hm _ _ _ E1) as [[l1 [Hl1 [Hk1 Hp1]]] _].
    destruct (Hh e _ _ _ H) as [[l2 [Hl2 [Hk2 Hp2]]] Hq2].
    split; [|exact Hq2].
    exists (l1 ++ l2)%list. rewrite Hl2, Hl1, app_assoc. split; [reflexivity|].
    rewrite order_calls_app, length_app. split; [lia|]. apply Forall_app; auto.
  - inversion H; subst. destruct (Hm _ _ _ E1) as [[l [Hl [Hk Hp]]] Hq]. split.
    + exists l. split; [exact Hl|]. split; [lia|exact Hp].
    + exact Hq.
Qed.

(** A single call that is not an order. *)
Lemma adds_log_one {A} (Q : A -> Prop) (m : M A) :
  (forall s r s', m s = (r, s') ->
     (exists c, st_log s' = (st_log s ++ [c])%list /\ order_calls [c] = []) /\
     (forall x, r = inr x -> Q x)) ->
  adds_orders P 0 Q m.
Proof.
  intros Hm s r s' H. destruct (Hm s r s' H) as [[c [Hl Hc]] Hq]. split; [|exact Hq].
  exists [c]. rewrite Hc. split; [exact Hl|]. split; [cbn; lia|constructor].
Qed.

Lemma adds_silent {A} (Q : A -> Prop) (m : M A) :
  (forall s r s', m s = (r, s') -> st_log s' = st_log s /\ (forall x, r = inr x -> Q x)) ->
  adds_orders P 0 Q m.
Proof.
  intros Hm s r s' H. destruct (Hm s r s' H) as [Hl Hq]. split; [|exact Hq].
  exists []. rewrite app_nil_r. split; [exact Hl|]. split; [cbn; lia|constructor].
Qed.

Variable E : env.

Ltac prim_orders_tail :=
  intros s r s' H;
  repeat match type of H with
         | context [match ?x with _ => _ end] => destruct x
         end;
  inversion H; subst;
  (split; [try (eexists; split; reflexivity); try reflexivity
          | intros; try discriminate; trivial]).

Ltac prim_silent := apply adds_silent; prim_orders_tail.
Ltac prim_log := apply adds_log_one; prim_orders_tail.

Lemma now_orders : adds_orders P 0 (fun _ => True) (now E).
Proof. unfold now. prim_silent. Qed.
Lemma get_exchange_api_key_orders u x : adds_orders P 0 (fun _ => True) (get_exchange_api_key E u x).
Proof. unfold get_exchange_api_key. prim_log. Qed.
Lemma construct_client_orders x c : adds_orders P 0 (fun _ => True) (construct_client E x c).
Proof. unfold construct_client. prim_log. Qed.
Lemma fetch_balance_orders h : adds_orders P 0 (fun _ => True) (fetch_balance E h).
Proof. unfold fetch_balance. prim_log. Qed.
Lemma fetch_ticker_orders h y : adds_orders P 0 (fun _ => True) (fetch_ticker E h y).
Proof. unfold fetch_ticker. prim_log. Qed.
Lemma cache_get_orders k : adds_orders P 0 (fun _ => True) (cache_get k).
Proof. unfold cache_get. prim_silent. Qed.
Lemma cache_put_orders k h : adds_orders P 0 (fun _ => True) (cache_put k h).
Proof. unfold cache_put. prim_silent. Qed.
Lemma save_alert_history_orders u rc : adds_orders P 0 (fun _ => True) (save_alert_history E u rc).
Proof. unfold save_alert_history. prim_silent. Qed.

Lemma create_order_orders h rq :
  P rq -> adds_orders P 1 (fun _ => True) (create_order E h rq).
Proof.
  intros Hp s r s' H. unfold create_order in H.
  assert (Hl : st_log s' = (st_log s ++ [CCreateOrder (h_id h) rq])%list).
  { destruct (env_create_order E (length (st_log s)) h rq); inversion H; reflexivity. }
  split; [|trivial].
  exists [CCreateOrder (h_id h) rq]. split; [exact Hl|]. split; [cbn; lia|].
  repeat constructor. exact Hp.
Qed.

Ltac solve_orders :=
  repeat first
    [ apply (adds_bind 0 0 (fun _ => True)); [|intros ? _]
    | apply (adds_try 0 0); [|intro]
    | apply adds_ret; exact I
    | apply adds_raise
    | apply now_orders | apply get_exchange_api_key_orders | apply construct_client_orders
    | apply fetch_balance_orders | apply fetch_ticker_orders | apply cache_get_orders
    | apply cache_put_orders | apply save_alert_history_orders
    | match goal with
      | |- context [match ?x with _ => _ end] => destruct x
      end ].

Lemma py_index_orders {A} (xs : list A) i : adds_orders P 0 (fun _ => True) (py_index xs i).
Proof. unfold py_index. solve_orders. Qed.
Lemma py_div_orders x y : adds_orders P 0 (fun _ => True) (py_div x y).
Proof. unfold py_div. solve_orders. Qed.

Lemma get_exchange_client_orders u x : adds_orders P 0 (fun _ => True) (get_exchange_client E u x).
Proof. unfold get_exchange_client. solve_orders. Qed.

Lemma determine_quantity_orders h c a y : adds_orders P 0 (fun _ => True) (determine_quantity E h c a y).
Proof.
  unfold determine_quantity. solve_orders; first [apply py_index_orders | apply py_div_orders].
Qed.

(** What [resolve_quantity] returns passed the [if not quantity] guard. *)
Lemma resolve_quantity_orders h c a y :
  adds_orders P 0 (fun q => ~ (q == 0)%Q) (resolve_quantity E h c a y).
Proof.
  unfold resolve_quantity.
  apply (adds_bind 0 0 (fun _ => True)); [apply determine_quantity_orders|].
  intros x _. destruct (truthy x) as [q|] eqn:Hq; [|apply adds_raise].
  apply adds_ret. destruct x as [p|]; [|discriminate].
  exact (proj2 (truthy_Some _ _ Hq)).
Qed.

Lemma dispatch_order_orders h c a y o d q :
  (forall rq, rq_symbol rq = y -> rq_side rq = d -> rq_amount rq = q ->
              rq_type rq = "market" \/ rq_type rq = "limit" \/ rq_type rq = "stop" -> P rq) ->
  adds_orders P 1 (fun _ => True) (dispatch_order E h c a y o d q).
Proof.
  intros Hp. unfold dispatch_order.
  repeat match goal with
         | |- context [if ?b then _ else _] => destruct b
         | |- context [match ?x with _ => _ end] => destruct x
         end;
    first [ apply adds_raise | apply adds_ret; exact I
          | apply (adds_bind 1 0 (fun _ => True));
            [apply create_order_orders, Hp; cbn; auto | intros ? _; apply adds_ret; exact I] ].
Qed.

End Orders.

(** The handler places at most one exchange order per alert, and only for a
    stored configuration: for its symbol, with side ["buy"] exactly when its
    position_side is ["long"] (["sell"] otherwise, also for values other
    than ["short"]), with a non-zero amount and a ccxt type among market,
    limit and stop. *)
Theorem process_places_one_order (E : env) (a : alert) (s : st) r s'
    (Hrun : process_tradingview_alert E a s = (r, s')) :
  exists l, st_log s' = (st_log s ++ l)%list /\ (length (order_calls l) <= 1)%nat /\
    Forall (fun rq => exists cfg,
              env_configs E !! config_key (al_user_id a) (al_config_name a) = Some (inr cfg) /\
              rq_symbol rq = cfg_symbol cfg /\
              rq_side rq = (if String.eqb (cfg_position_side cfg) "long" then "buy" else "sell") /\
              ~ (rq_amount rq == 0)%Q /\
              (rq_type rq = "market" \/ rq_type rq = "limit" \/ rq_type rq = "stop"))
      (order_calls l).
Proof.
  set (P := fun rq : order_req => exists cfg,
              env_configs E !! config_key (al_user_id a) (al_config_name a) = Some (inr cfg) /\
              rq_symbol rq = cfg_symbol cfg /\
              rq_side rq = (if String.eqb (cfg_position_side cfg) "long" then "buy" else "sell") /\
              ~ (rq_amount rq == 0)%Q /\
              (rq_type rq = "market" \/ rq_type rq = "limit" \/ rq_type rq = "stop")).
  assert (Hp : adds_orders P 1 (fun _ => True) (process_tradingview_alert E a)).
  { unfold process_tradingview_alert. apply (adds_try P 1 0).
    2: { intros e. destruct e; [apply adds_raise|].
         unfold failure_path. apply (adds_bind P 0 0 (fun _ => True)); [apply now_orders|].
         intros ts _. apply (adds_bind P 0 0 (fun _ => True)); [apply save_alert_history_orders|].
         intros _ _. apply adds_ret. exact I. }
    unfold process_body.
    apply (adds_bind P 0 1 (fun x => forall cfg, x = Some cfg ->
             env_configs E !! config_key (al_user_id a) (al_config_name a) = Some (inr cfg))).
    { unfold get_alert_config.
      destruct (env_configs E !! config_key (al_user_id a) (al_config_name a)) as [[m|c]|];
        [apply adds_raise|apply adds_ret; intros ? [= ->]; reflexivity|apply adds_ret; discriminate]. }
    intros x Hx. destruct x as [cfg|]; [|apply adds_raise].
    specialize (Hx cfg eq_refl).
    apply (adds_bind P 0 1 (fun _ => True)); [apply get_exchange_client_orders|].
    intros h _. apply (adds_bind P 0 1 (fun q => ~ (q == 0)%Q)); [apply resolve_quantity_orders|].
    intros q Hq. apply (adds_bind P 1 0 (fun _ => True)).
    { apply dispatch_order_orders. intros rq Hy Hd Ha Ht. exists cfg.
      split; [exact Hx|]. split; [exact Hy|]. split; [exact Hd|].
      split; [rewrite Ha; exact Hq|exact Ht]. }
    intros o _. apply (adds_bind P 0 0 (fun _ => True)); [apply now_orders|].
    intros ts _. apply (adds_bind P 0 0 (fun _ => True)); [apply save_alert_history_orders|].
    intros _ _. apply adds_ret. exact I. }
  exact (proj1 (Hp s r s' Hrun)).
Qed.

(** ** Client acquisition *)


(** With exchange names free of [:], the cache key determines the user and
    the exchange. *)
Lemma client_key_inj (u ex u' ex' : string) :
  Database.has_char ":" ex = false -> Database.has_char ":" ex' = false ->
  client_key u ex = client_key u' ex' -> u = u' /\ ex = ex'.
Proof.
  unfold client_key. intros He He'. revert u'.
  induction u as [|a u IH]; intros [|b u']; intros H.
  - split; [reflexivity|]. injection H. auto.
  - change (String ":" ex = String b (u' +:+ String ":" ex')) in H.
    injection H as <- Hex. subst ex. rewrite DatabaseFacts.has_char_app_sep in He. discriminate.
  - change (String a (u +:+ String ":" ex) = String ":" ex') in H.
    injection H as -> Hex. subst ex'. rewrite DatabaseFacts.has_char_app_sep in He'. discriminate.
  - change (String a (u +:+ String ":" ex) = String b (u' +:+ String ":" ex')) in H.
    injection H as <- H. destruct (IH u' H) as [-> ->]. auto.
Qed.

(** A failed client acquisition leaves the cache unchanged (a later call
    asks the vault and ccxt again).  It fails only on a cache miss, in one
    of three ways: no stored credentials (404, ccxt not called); reading
    the credentials raises (a Redis, JSON or Fernet error, which
    [get_exchange_client] does not catch; ccxt not called); or ccxt
    raises (500, carrying ccxt's message). *)
Theorem get_exchange_client_failure (E : env) (u ex : string) (s : st) e s'
    (Hrun : get_exchange_client E u ex s = (inl e, s')) :
  st_cache s' = st_cache s /\ st_cache s !! client_key u ex = None /\
  ((env_vault E !! exchange_key u ex = None /\
    e = HTTPException 404 ("API keys not found for exchange " +:+ ex) /\
    st_log s' = (st_log s ++ [CVaultGet u ex])%list) \/
   (exists msg, env_vault E !! exchange_key u ex = Some (inl msg) /\
    e = Exception msg /\
    st_log s' = (st_log s ++ [CVaultGet u ex])%list) \/
   (exists c msg, env_vault E !! exchange_key u ex = Some (inr c) /\
    env_construct_error E ex c = Some msg /\
    e = HTTPException 500 ("Error creating exchange client: " +:+ msg) /\
    st_log s' = (st_log s ++ [CVaultGet u ex; CConstruct ex])%list)).
Proof.
  revert Hrun.
  unfold get_exchange_client, cache_get, bind, ret, raise, get_exchange_api_key,
    try_catch, construct_client, cache_put.
  destruct (st_cache s !! client_key u ex) as [h|] eqn:Hc; [discriminate|].
  destruct (env_vault E !! exchange_key u ex) as [[msg|c]|] eqn:Hv.
  - intros H; inversion H; subst. split; [reflexivity|]. split; [reflexivity|].
    right; left. exists msg. repeat split; assumption.
  - destruct (env_construct_error E ex c) as [msg|] eqn:Hce; intros H; inversion H; subst.
    split; [reflexivity|]. split; [reflexivity|]. right; right. exists c, msg.
    repeat split; try assumption. cbn. now rewrite <- app_assoc.
  - intros H; inversion H; subst. split; [reflexivity|]. split; [reflexivity|].
    left. repeat split; assumption.
Qed.

(** When the cache is sound and the exchange name has no [:], the client
    [get_exchange_client u ex] returns, from the cache or newly built, is
    for exchange [ex] with the credentials stored for [u] and [ex], and the
    cache stays sound. *)
Theorem get_exchange_client_identity (E : env) (u ex : string) (s : st) h s'
    (Hcache : cache_sound E s)
    (Hex : Database.has_char ":" ex = false)
    (Hrun : get_exchange_client E u ex s = (inr h, s')) :
  h_exchange h = ex /\
  (exists c, env_vault E !! exchange_key u ex = Some (inr c) /\
             h_api_key h = api_key c /\ h_secret h = api_secret c) /\
  cache_sound E s'.
Proof.
  revert Hrun.
  unfold get_exchange_client, cache_get, bind, ret, raise, get_exchange_api_key,
    try_catch, construct_client, cache_put.
  destruct (st_cache s !! client_key u ex) as [h0|] eqn:Hc.
  - intros H; inversion H; subst.
    destruct (Hcache _ _ Hc) as (u' & ex' & c & Hk & Hex' & Hh & Hv & Ha & Hs).
    destruct (client_key_inj u ex u' ex' Hex Hex' Hk) as [<- <-].
    split; [exact Hh|]. split; [exists c; auto|exact Hcache].
  - destruct (env_vault E !! exchange_key u ex) as [[msg|c]|] eqn:Hv; [discriminate| |discriminate].
    destruct (env_construct_error E ex c) as [msg|] eqn:Hce; [discriminate|].
    intros H; inversion H; subst; clear H.
    split; [reflexivity|]. split; [exists c; auto|].
    intros k h'. cbn.
    destruct (decide (client_key u ex = k)) as [<-|Hne].
    + rewrite lookup_insert_eq. intros Hh; inversion Hh; subst.
      exists u, ex, c. repeat split; auto.
    + rewrite lookup_insert_ne by exact Hne. apply Hcache.
Qed.

End PipelineFacts.

(** * Instances of the code properties *)

Module ExtraWitnesses.
Import Database Api Frontend.

Lemma redis_demo_dicts :
  forall n w, r_store redis_demo !! config_key "default" n = Some w ->
              json_truthy w = true -> exists d, w = JObj d.
Proof.
  intros n w Hw _.
  assert (Hall : map_Forall (fun _ v => exists d, v = JObj d) (r_store redis_demo)).
  { unfold redis_demo; cbn.
    repeat apply map_Forall_insert_2; try (eexists; reflexivity). apply map_Forall_empty. }
  exact (Hall _ _ Hw).
Qed.

Lemma exchange_api_key_roundtrip_witness :
  (forall n x, id_decrypt (id_encrypt n x) = Some x) /\
  get_exchange_api_key id_decrypt "default" "binance"
    (snd (save_exchange_api_key id_encrypt "default" "binance" "k" "s" redis_demo))
  = inr (Some {| api_key := "k"; api_secret := "s" |}).
Proof.
  split; [intros; reflexivity|].
  apply (DatabaseFacts.exchange_api_key_roundtrip id_encrypt id_decrypt (fun _ _ => eq_refl)).
Defined.

Lemma get_all_alert_configs_complete_witness :
  glob_free "default" = true /\
  (forall n w, r_store redis_demo !! config_key "default" n = Some w ->
               json_truthy w = true -> exists d, w = JObj d) /\
  exists cs, get_all_alert_configs "default" redis_demo = inr cs /\
    forall m d, has_char ":" m = false ->
                r_store redis_demo !! config_key "default" m = Some (JObj d) -> d <> [] ->
                In (JObj (dict_set d "name" (JStr m))) cs.
Proof.
  split; [reflexivity|]. split; [exact redis_demo_dicts|].
  exact (DatabaseFacts.get_all_alert_configs_complete "default" redis_demo eq_refl
           redis_demo_dicts).
Defined.

Lemma get_all_alert_configs_sound_witness :
  let cs := match get_all_alert_configs "default" redis_demo with inr cs => cs | inl _ => [] end in
  get_all_alert_configs "default" redis_demo = inr cs /\
  forall j, In j cs ->
  exists m d, has_char ":" m = false /\ r_store redis_demo !! config_key "default" m = Some (JObj d) /\
              d <> [] /\ j = JObj (dict_set d "name" (JStr m)).
Proof.
  cbv zeta.
  assert (Hok : get_all_alert_configs "default" redis_demo
                = inr (match get_all_alert_configs "default" redis_demo with
                       | inr cs => cs | inl _ => [] end))
    by (vm_compute; reflexivity).
  split; [exact Hok|].
  exact (DatabaseFacts.get_all_alert_configs_sound "default" redis_demo _ Hok).
Defined.

Lemma get_all_alert_configs_duplicate_witness :
  glob_free "default" = true /\
  (forall n w, r_store redis_demo !! config_key "default" n = Some w ->
               json_truthy w = true -> exists d, w = JObj d) /\
  has_char ":" "m1" = false /\
  r_store redis_demo !! config_key "default" "m1" = Some (JObj [("name", JStr "m1")]) /\
  [("name", JStr "m1")] <> [] /\
  r_store redis_demo !! config_key "default" ("x" +:+ ":" +:+ "m1")
    = Some (JObj [("name", JStr "x:m1")]) /\
  exists cs1 cs2 cs3,
    get_all_alert_configs "default" redis_demo
    = inr (cs1 ++ JObj (dict_set [("name", JStr "m1")] "name" (JStr "m1")) :: cs2 ++
           JObj (dict_set [("name", JStr "m1")] "name" (JStr "m1")) :: cs3)%list.
Proof.
  assert (Hm : has_char ":" "m1" = false) by reflexivity.
  assert (Hd : r_store redis_demo !! config_key "default" "m1" = Some (JObj [("name", JStr "m1")]))
    by (vm_compute; reflexivity).
  assert (Hne : [("name", JStr "m1")] <> []) by discriminate.
  assert (Hx : r_store redis_demo !! config_key "default" ("x" +:+ ":" +:+ "m1")
               = Some (JObj [("name", JStr "x:m1")])) by (vm_compute; reflexivity).
  split; [reflexivity|].
  split; [exact redis_demo_dicts|]. split; [exact Hm|]. split; [exact Hd|].
  split; [exact Hne|]. split; [exact Hx|].
  exact (DatabaseFacts.get_all_alert_configs_duplicate "default" "m1" "x" redis_demo _ _
           eq_refl redis_demo_dicts Hm Hd Hne Hx).
Defined.

Lemma get_alert_history_length_witness :
  glob_free "default" = true /\ (0 <= 1)%Z /\
  length (get_alert_history "default" 1 redis_demo)
  = Nat.min (Z.to_nat 1) (length (redis_keys_prefix ("alert:" +:+ "default" +:+ ":") redis_demo)).
Proof.
  split; [reflexivity|]. split; [lia|].
  apply DatabaseFacts.get_alert_history_length; [reflexivity|lia].
Defined.

Lemma get_alert_history_prefix_users_witness :
  glob_free "default" = true /\ (0 <= 20)%Z /\
  length (redis_keys_prefix ("alert:" +:+ "default" +:+ ":") redis_demo) <= Z.to_nat 20 /\
  r_store redis_demo !! alert_key ("default" +:+ ":" +:+ "x") "t1" = Some (JObj [("success", JBool true)]) /\
  In (JObj [("success", JBool true)]) (get_alert_history "default" 20 redis_demo).
Proof.
  assert (H1 : (0 <= 20)%Z) by lia.
  assert (H2 : length (redis_keys_prefix ("alert:" +:+ "default" +:+ ":") redis_demo) <= Z.to_nat 20).
  { apply Nat.leb_le. vm_compute. reflexivity. }
  assert (H3 : r_store redis_demo !! alert_key ("default" +:+ ":" +:+ "x") "t1"
               = Some (JObj [("success", JBool true)])) by (vm_compute; reflexivity).
  split; [reflexivity|]. split; [exact H1|]. split; [exact H2|]. split; [exact H3|].
  exact (DatabaseFacts.get_alert_history_prefix_users "default" "x" "t1" 20 redis_demo _
           eq_refl H1 H2 H3).
Defined.

(** The latest-records property of the history read, for the user
    ["default"] and a limit of 1. *)
Lemma get_alert_history_latest_witness :
  glob_free "default" = true /\
  exists ks,
    Forall2 (fun k v => r_store redis_demo !! k = Some v) ks (get_alert_history "default" 1 redis_demo) /\
    Sorted key_ge ks /\
    (forall k, In k ks -> startswith ("alert:" +:+ "default" +:+ ":") k = true) /\
    (forall k k', In k ks -> startswith ("alert:" +:+ "default" +:+ ":") k' = true ->
                  is_Some (r_store redis_demo !! k') -> ~ In k' ks -> key_ge k k').
Proof.
  split; [reflexivity|].
  exact (DatabaseFacts.get_alert_history_latest "default" 1 redis_demo eq_refl).
Defined.

(** Two users free of [:]: a configuration write by one leaves the other's
    credential lookup as it was, and so on. *)
Lemma user_namespaces_separate_witness :
  has_char ":" "default" = false /\ has_char ":" "other" = false /\
  get_exchange_api_key id_decrypt "other" "binance"
    (snd (save_alert_config "default" "c1" (JObj []) redis_demo))
    = get_exchange_api_key id_decrypt "other" "binance" redis_demo /\
  get_exchange_api_key id_decrypt "other" "binance"
    (snd (delete_alert_config "default" "c1" redis_demo))
    = get_exchange_api_key id_decrypt "other" "binance" redis_demo /\
  get_alert_config "other" "c1"
    (snd (save_exchange_api_key id_encrypt "default" "binance" "k" "s" redis_demo))
    = get_alert_config "other" "c1" redis_demo /\
  get_alert_config "other" "c1" (snd (delete_exchange_api_key "default" "binance" redis_demo))
    = get_alert_config "other" "c1" redis_demo.
Proof.
  split; [reflexivity|]. split; [reflexivity|].
  exact (DatabaseFacts.user_namespaces_separate id_encrypt id_decrypt "default" "other"
           "binance" "c1" "k" "s" (JObj []) redis_demo eq_refl eq_refl).
Defined.

Lemma create_then_list_configs_witness :
  has_char ":" (acm_name cfg_model_demo) = false /\
  (forall n w, r_store redis_demo !! config_key default_user n = Some w ->
               json_truthy w = true -> exists d, w = JObj d) /\
  exists cs, list_configs (snd (create_alert_config cfg_model_demo redis_demo)) = inr (JList cs) /\
             In (config_dict cfg_model_demo) cs.
Proof.
  assert (Hn : has_char ":" (acm_name cfg_model_demo) = false) by reflexivity.
  split; [exact Hn|]. split; [exact redis_demo_dicts|].
  exact (ApiFacts.create_then_list_configs cfg_model_demo redis_demo Hn redis_demo_dicts).
Defined.

Lemma api_key_status_endpoints_witness :
  (forall n x, id_decrypt (id_encrypt n x) = Some x) /\
  get_api_key_status id_decrypt "binance"
    (snd (add_api_key id_encrypt {| akm_exchange := BINANCE; akm_api_key := "k";
                                    akm_api_secret := "s" |} redis_demo))
  = inr (JObj [("has_keys", JBool true)]).
Proof.
  split; [intros; reflexivity|].
  exact (proj1 (proj2 (ApiFacts.api_key_status_endpoints id_encrypt id_decrypt
    (fun _ _ => eq_refl) {| akm_exchange := BINANCE; akm_api_key := "k"; akm_api_secret := "s" |}
    "binance" redis_demo))).
Defined.

Lemma process_places_one_order_witness :
  process_tradingview_alert E_ok alert_c1 st0 = (fst run1, snd run1) /\
  exists l, st_log (snd run1) = (st_log st0 ++ l)%list /\ (length (order_calls l) <= 1)%nat /\
    Forall (fun rq => exists cfg,
              env_configs E_ok !! config_key (al_user_id alert_c1) (al_config_name alert_c1) = Some (inr cfg) /\
              rq_symbol rq = cfg_symbol cfg /\
              rq_side rq = (if String.eqb (cfg_position_side cfg) "long" then "buy" else "sell") /\
              ~ (rq_amount rq == 0)%Q /\
              (rq_type rq = "market" \/ rq_type rq = "limit" \/ rq_type rq = "stop"))
      (order_calls l).
Proof.
  assert (H : process_tradingview_alert E_ok alert_c1 st0 = (fst run1, snd run1))
    by (vm_compute; reflexivity).
  split; [exact H|].
  exact (PipelineFacts.process_places_one_order E_ok alert_c1 st0 _ _ H).
Defined.

(** With Redis unreachable, the credential read raises and the error
    leaves [get_exchange_client]. *)
Lemma get_exchange_client_failure_witness :
  get_exchange_client E_down "u1" "binance" st0
    = (inl (Exception redis_down), log_call (CVaultGet "u1" "binance") st0) /\
  st_cache (log_call (CVaultGet "u1" "binance") st0) = st_cache st0 /\
  st_cache st0 !! client_key "u1" "binance" = None /\
  ((env_vault E_down !! exchange_key "u1" "binance" = None /\
    Exception redis_down = HTTPException 404 ("API keys not found for exchange " +:+ "binance") /\
    st_log (log_call (CVaultGet "u1" "binance") st0) = (st_log st0 ++ [CVaultGet "u1" "binance"])%list) \/
   (exists msg, env_vault E_down !! exchange_key "u1" "binance" = Some (inl msg) /\
    Exception redis_down = Exception msg /\
    st_log (log_call (CVaultGet "u1" "binance") st0) = (st_log st0 ++ [CVaultGet "u1" "binance"])%list) \/
   (exists c msg, env_vault E_down !! exchange_key "u1" "binance" = Some (inr c) /\
    env_construct_error E_down "binance" c = Some msg /\
    Exception redis_down = HTTPException 500 ("Error creating exchange client: " +:+ msg) /\
    st_log (log_call (CVaultGet "u1" "binance") st0)
      = (st_log st0 ++ [CVaultGet "u1" "binance"; CConstruct "binance"])%list)).
Proof.
  assert (H : get_exchange_client E_down "u1" "binance" st0
                = (inl (Exception redis_down), log_call (CVaultGet "u1" "binance") st0))
    by (vm_compute; reflexivity).
  split; [exact H|].
  exact (PipelineFacts.get_exchange_client_failure E_down "u1" "binance" st0 _ _ H).
Defined.

Lemma get_exchange_client_identity_witness :
  let h := match fst (get_exchange_client E_ok "u1" "binance" st0) with inr h => h | inl _ => h0 end in
  let s' := snd (get_exchange_client E_ok "u1" "binance" st0) in
  cache_sound E_ok st0 /\ Database.has_char ":" "binance" = false /\
  get_exchange_client E_ok "u1" "binance" st0 = (inr h, s') /\
  h_exchange h = "binance" /\
  (exists c, env_vault E_ok !! exchange_key "u1" "binance" = Some (inr c) /\
             h_api_key h = api_key c /\ h_secret h = api_secret c) /\
  cache_sound E_ok s'.
Proof.
  cbv zeta.
  assert (Hc : cache_sound E_ok st0).
  { intros k h H. vm_compute in H. discriminate. }
  assert (Hx : Database.has_char ":" "binance" = false) by reflexivity.
  assert (H : get_exchange_client E_ok "u1" "binance" st0
              = (inr (match fst (get_exchange_client E_ok "u1" "binance" st0) with
                      | inr h => h | inl _ => h0 end),
                 snd (get_exchange_client E_ok "u1" "binance" st0))) by (vm_compute; reflexivity).
  split; [exact Hc|]. split; [exact Hx|]. split; [exact H|].
  exact (PipelineFacts.get_exchange_client_identity E_ok "u1" "binance" st0 _ _ Hc Hx H).
Defined.

End ExtraWitnesses.

